(** * Type-definition tree builder (src/models/typeDefinition.ts)

    A shallow embedding of the classes of [typeDefinition.ts]: the property
    type variants, the property classes and their constructors, the
    flattening of nested objects and the root [TypeDefinition].

    Conventions of the embedding.
    - A JavaScript value that may be [undefined] is an [option].
    - A condition [if (x)] is JavaScript truthiness: a string is truthy when
      it is present and not empty, an object or an array when it is present.
    - A constructor returns a [Completion]: [Normal v] when it returns,
      [Thrown e] when it throws.  [try { .. } catch] is a match on it.
    - [console.warn] appends to a list of warnings that is returned.
    - The schema fragment is a tree (it comes from parsed JSON, no object
      occurs in two places).  The assignments [propertySchemaObject.type = ..]
      are returned as the fragment after the call. *)

From Stdlib Require Import String Ascii List Bool.
Import ListNotations.
Open Scope string_scope.
Set Warnings "-register-all".

(** ** Exceptions and warnings *)

(** The errors the constructors can raise: calling [.map] on [undefined] or
    on a value that is not an array. *)
Inductive JsError : Type :=
| TypeError_undefined_map
| TypeError_map_is_not_a_function.

Inductive Completion (A : Type) : Type :=
| Normal (value : A)
| Thrown (error : JsError).

Arguments Normal {A} value.
Arguments Thrown {A} error.

(** The two messages passed to [console.warn]. *)
Inductive Warning : Type :=
| UnknownTypeOfSchemaDefinition (type : option string)
| UnableToProcessObjectProperty (propertyName : string) (error : JsError).

(** ** [getTypeNameFromRef] *)

(** [s.split("/")], with [cur] the segment read so far. *)
Fixpoint split_slash (cur : string) (s : string) : list string :=
  match s with
  | EmptyString => [cur]
  | String ch rest =>
      if Ascii.eqb ch "/"%char then cur :: split_slash EmptyString rest
      else split_slash (cur ++ String ch EmptyString) rest
  end.

(** [$ref && $ref.split("/").pop()] on a string. *)
Definition getTypeNameFromRef (ref : string) : string :=
  match ref with
  | EmptyString => EmptyString
  | _ => last (split_slash EmptyString ref) EmptyString
  end.

(** An instance for the examples: a JSON value is given by its text, which
    is what [JSON.stringify] returns. *)
Definition JsonText : Type := string.
Definition JsonText_stringify (v : JsonText) : string := v.

Section TypeDefinitionModel.

(** Values of type [any] of the contract ([enum] members, object-valued
    [example]) and the host function [JSON.stringify(v, null, 4)]. *)
Variable JsonValue : Type.
Variable JSON_stringify : JsonValue -> string.

(** ** The contract: SchemaObjectContract *)

(** [contract.example]: a string, or a value with [typeof v === "object"]. *)
Inductive ExampleValue : Type :=
| ExampleString (s : string)
| ExampleObject (o : JsonValue).

(** Modelled from the spec: the interface [SchemaObjectContract] of
    [../contracts/schema] is not among the sources; its fields are the ones
    the constructors read.  [properties] is kept in the order of
    [Object.keys]; a value of [properties] may be null.  [not] holds either a
    single fragment or an array of fragments. *)
Inductive SchemaObjectContract : Type := mkSchema {
  c_type : option string;
  c_format : option string;
  c_title : option string;
  c_description : option string;
  c_example : option ExampleValue;
  c_enum : option (list JsonValue);
  c_properties : option (list (string * option SchemaObjectContract));
  c_required : option (list string);
  c_items : option SchemaObjectContract;
  c_ref : option string;
  c_allOf : option (list SchemaObjectContract);
  c_anyOf : option (list SchemaObjectContract);
  c_oneOf : option (list SchemaObjectContract);
  c_not : option (SchemaObjectContract + list SchemaObjectContract)
}.

(** The object literal [{}]. *)
Definition emptyContract : SchemaObjectContract :=
  mkSchema None None None None None None None None None None None None None None.

(** The fragment after the assignment [contract.type = ty]. *)
Definition setType (ty : option string) (c : SchemaObjectContract) : SchemaObjectContract :=
  mkSchema ty (c_format c) (c_title c) (c_description c) (c_example c) (c_enum c)
           (c_properties c) (c_required c) (c_items c) (c_ref c)
           (c_allOf c) (c_anyOf c) (c_oneOf c) (c_not c).

Definition setProperties (ps : option (list (string * option SchemaObjectContract)))
  (c : SchemaObjectContract) : SchemaObjectContract :=
  mkSchema (c_type c) (c_format c) (c_title c) (c_description c) (c_example c) (c_enum c)
           ps (c_required c) (c_items c) (c_ref c)
           (c_allOf c) (c_anyOf c) (c_oneOf c) (c_not c).

Definition setItems (it : option SchemaObjectContract)
  (c : SchemaObjectContract) : SchemaObjectContract :=
  mkSchema (c_type c) (c_format c) (c_title c) (c_description c) (c_example c) (c_enum c)
           (c_properties c) (c_required c) it (c_ref c)
           (c_allOf c) (c_anyOf c) (c_oneOf c) (c_not c).

(** ** JavaScript truthiness and [||] on strings *)

Definition truthy (s : option string) : option string :=
  match s with
  | Some EmptyString => None
  | Some v => Some v
  | None => None
  end.

(** [a || b] where [b] is a string. *)
Definition orElse (a : option string) (b : string) : string :=
  match truthy a with
  | Some v => v
  | None => b
  end.

Definition present {A : Type} (x : option A) : bool :=
  match x with Some _ => true | None => false end.

(** ** Property types *)

Inductive TypeDefinitionPropertyType : Type :=
| TypeDefinitionPropertyTypePrimitive (name : string)
| TypeDefinitionPropertyTypeReference (name : string)
| TypeDefinitionPropertyTypeArrayOfPrimitive (name : string)
| TypeDefinitionPropertyTypeArrayOfReference (name : string)
| TypeDefinitionPropertyTypeCombination
    (combinationType : string) (combination : list TypeDefinitionPropertyType).

Definition displayAs (t : TypeDefinitionPropertyType) : string :=
  match t with
  | TypeDefinitionPropertyTypePrimitive _ => "primitive"
  | TypeDefinitionPropertyTypeReference _ => "reference"
  | TypeDefinitionPropertyTypeArrayOfPrimitive _ => "arrayOfPrimitive"
  | TypeDefinitionPropertyTypeArrayOfReference _ => "arrayOfReference"
  | TypeDefinitionPropertyTypeCombination _ _ => "combination"
  end.

(** ** Properties *)

(** The class an object was created with ([instanceof] looks at it). *)
Inductive PropertyClass : Type :=
| ClassPrimitiveProperty
| ClassEnumerationProperty
| ClassCombinationProperty
| ClassObjectProperty
| ClassIndexerProperty
| ClassTypeDefinition.

(** [p instanceof TypeDefinitionObjectProperty]: the class and its two
    subclasses. *)
Definition instanceofObjectProperty (c : PropertyClass) : bool :=
  match c with
  | ClassObjectProperty | ClassIndexerProperty | ClassTypeDefinition => true
  | _ => false
  end.

Inductive TypeDefinitionProperty : Type := mkProperty {
  class : PropertyClass;
  name : string;
  description : option string;
  type : TypeDefinitionPropertyType;
  kind : option string;
  example : option string;
  exampleFormat : string;
  required : bool;
  isArray : bool;
  enum : option (list JsonValue);
  properties : option (list TypeDefinitionProperty)
}.

Definition setName (n : string) (p : TypeDefinitionProperty) : TypeDefinitionProperty :=
  mkProperty (class p) n (description p) (type p) (kind p) (example p)
             (exampleFormat p) (required p) (isArray p) (enum p) (properties p).

Definition setPType (t : TypeDefinitionPropertyType) (p : TypeDefinitionProperty) :=
  mkProperty (class p) (name p) (description p) t (kind p) (example p)
             (exampleFormat p) (required p) (isArray p) (enum p) (properties p).

Definition setKind (k : string) (p : TypeDefinitionProperty) :=
  mkProperty (class p) (name p) (description p) (type p) (Some k) (example p)
             (exampleFormat p) (required p) (isArray p) (enum p) (properties p).

Definition setEnum (e : list JsonValue) (p : TypeDefinitionProperty) :=
  mkProperty (class p) (name p) (description p) (type p) (kind p) (example p)
             (exampleFormat p) (required p) (isArray p) (Some e) (properties p).

Definition setPProperties (ps : list TypeDefinitionProperty) (p : TypeDefinitionProperty) :=
  mkProperty (class p) (name p) (description p) (type p) (kind p) (example p)
             (exampleFormat p) (required p) (isArray p) (enum p) (Some ps).

Definition setClass (c : PropertyClass) (p : TypeDefinitionProperty) :=
  mkProperty c (name p) (description p) (type p) (kind p) (example p)
             (exampleFormat p) (required p) (isArray p) (enum p) (properties p).

(** ** Constructors *)

(** [TypeDefinitionProperty.constructor]; [cl] is the class being created. *)
Definition newTypeDefinitionProperty (cl : PropertyClass) (name : string)
  (contract : SchemaObjectContract) (isRequired isArray : bool) : TypeDefinitionProperty :=
  mkProperty cl
    (orElse (c_title contract) name)
    (c_description contract)
    (TypeDefinitionPropertyTypePrimitive
       (orElse (c_format contract) (orElse (c_type contract) "object")))
    None
    (match c_example contract with
     | Some (ExampleObject o) => Some (JSON_stringify o)
     | Some (ExampleString s) => truthy (Some s)
     | None => None
     end)
    "json" isRequired isArray None None.

Definition TypeDefinitionPrimitiveProperty (name : string) (contract : SchemaObjectContract)
  (isRequired isArray : bool) : TypeDefinitionProperty :=
  setKind "primitive"
    (newTypeDefinitionProperty ClassPrimitiveProperty name contract isRequired isArray).

Definition TypeDefinitionEnumerationProperty (name : string) (contract : SchemaObjectContract)
  (isRequired isArray : bool) : TypeDefinitionProperty :=
  setKind "enum"
    (newTypeDefinitionProperty ClassEnumerationProperty name contract isRequired isArray).

(** The callback of [combinationArray.map]. *)
Definition combinationMember (item : SchemaObjectContract) : TypeDefinitionPropertyType :=
  match truthy (c_ref item) with
  | Some ref => TypeDefinitionPropertyTypeReference (getTypeNameFromRef ref)
  | None => TypeDefinitionPropertyTypePrimitive (orElse (c_type item) "object")
  end.

(** [combinationType] and [combinationArray] after the four [if]s: each one
    that holds overwrites both. *)
Definition combinationSelection (contract : SchemaObjectContract)
  : option string * option (SchemaObjectContract + list SchemaObjectContract) :=
  let sel := (None, None) in
  let sel := match c_allOf contract with
             | Some a => (Some "All of", Some (inr a)) | None => sel end in
  let sel := match c_anyOf contract with
             | Some a => (Some "Any of", Some (inr a)) | None => sel end in
  let sel := match c_oneOf contract with
             | Some a => (Some "One of", Some (inr a)) | None => sel end in
  match c_not contract with
  | Some v => (Some "Not", Some v) | None => sel end.

Definition TypeDefinitionCombinationProperty (name : string) (contract : SchemaObjectContract)
  (isRequired : bool) : Completion TypeDefinitionProperty :=
  let this := newTypeDefinitionProperty ClassCombinationProperty name contract isRequired false in
  match combinationSelection contract with
  | (Some combinationType, Some (inr combinationArray)) =>
      let combination := map combinationMember combinationArray in
      Normal (setKind "combination"
                (setPType (TypeDefinitionPropertyTypeCombination combinationType combination)
                   this))
  | (_, Some (inl _)) => Thrown TypeError_map_is_not_a_function
  | (_, _) => Thrown TypeError_undefined_map
  end.

(** [new TypeDefinitionIndexerProperty(type)]: [super("[]", {}, true)] runs
    the object constructor on [{}], which takes none of its branches; then
    [kind] and [type] are assigned (see [TypeDefinitionIndexerProperty_super]). *)
Definition TypeDefinitionIndexerProperty (ty : TypeDefinitionPropertyType)
  : TypeDefinitionProperty :=
  let this := setKind "object"
    (newTypeDefinitionProperty ClassIndexerProperty "[]" emptyContract true false) in
  setPType ty (setKind "indexer" this).

(** [flattenNestedObjects(nested, prefix)].  The renamed properties are
    returned; the object they are taken from is not used again. *)
Fixpoint flattenNestedObjects (nested : TypeDefinitionProperty) (prefix : string)
  {struct nested} : list TypeDefinitionProperty :=
  match properties nested with
  | None => []
  | Some ps =>
      (fix forEach (l : list TypeDefinitionProperty) : list TypeDefinitionProperty :=
         match l with
         | [] => []
         | property :: rest =>
             ((if instanceofObjectProperty (class property)
               then flattenNestedObjects property (prefix ++ "." ++ name property)
               else [setName (prefix ++ "." ++ name property) property])
              ++ forEach rest)%list
         end) ps
  end.

(** What a constructor call leaves behind: the fragment after the
    assignments made during the call, the warnings logged, and the object
    or the exception. *)
Definition Built : Type :=
  SchemaObjectContract * list Warning * Completion TypeDefinitionProperty.

(** [propertySchemaObject.type] after the three normalising [if]s of the
    properties loop. *)
Definition normalizedType (propertySchemaObject : SchemaObjectContract) : option string :=
  let ty := c_type propertySchemaObject in
  let ty := if present (truthy (c_ref propertySchemaObject)) then Some "object" else ty in
  let ty := if present (c_items propertySchemaObject) then Some "array" else ty in
  if present (c_allOf propertySchemaObject) || present (c_anyOf propertySchemaObject)
     || present (c_oneOf propertySchemaObject) || present (c_not propertySchemaObject)
  then Some "combination" else ty.

(** [contract.required?.includes(propertyName) || false]. *)
Definition isRequiredIn (required : option (list string)) (propertyName : string) : bool :=
  match required with
  | Some names => existsb (String.eqb propertyName) names
  | None => false
  end.

Definition isPrimitiveTypeName (ty : string) : bool :=
  String.eqb ty "integer" || String.eqb ty "number"
  || String.eqb ty "string" || String.eqb ty "boolean".

(** The body of the [try] block for one declared property whose fragment is
    not null.  [self ty name c ..] is the object constructor run on [c] once
    its [type] has been assigned [ty].  The result lists the properties
    pushed to [props]; no statement that can throw follows a push. *)
Definition tryBlock
  (self : option string -> string -> SchemaObjectContract -> bool -> bool -> bool -> Built)
  (required : option (list string)) (nested : bool)
  (propertyName : string) (propertySchemaObject : SchemaObjectContract)
  : SchemaObjectContract * list Warning * Completion (list TypeDefinitionProperty) :=
  let isRequired := isRequiredIn required propertyName in
  let ty := normalizedType propertySchemaObject in
  let schema := setType ty propertySchemaObject in
  match ty with
  | None => (schema, [UnknownTypeOfSchemaDefinition None], Normal [])
  | Some t =>
    if isPrimitiveTypeName t then
      if present (c_enum schema)
      then (schema, [], Normal [TypeDefinitionEnumerationProperty propertyName schema isRequired false])
      else (schema, [], Normal [TypeDefinitionPrimitiveProperty propertyName schema isRequired false])
    else if String.eqb t "object" then
      let '(schema', warnings, result) :=
        self ty propertyName propertySchemaObject isRequired true true in
      match result with
      | Thrown error => (schema', warnings, Thrown error)
      | Normal objectProperty =>
          if negb nested
          then (schema', warnings, Normal (flattenNestedObjects objectProperty propertyName))
          else (schema', warnings, Normal [objectProperty])
      end
    else if String.eqb t "array" then
      let arrayProperty := TypeDefinitionPrimitiveProperty propertyName schema isRequired true in
      match c_items propertySchemaObject with
      | None => (schema, [], Normal [])
      | Some items =>
          match truthy (c_ref items) with
          | Some ref =>
              (schema, [],
               Normal [setPType (TypeDefinitionPropertyTypeArrayOfReference
                                   (getTypeNameFromRef ref)) arrayProperty])
          | None =>
              match truthy (c_type items) with
              | Some itemsType =>
                  (schema, [],
                   Normal [setPType (TypeDefinitionPropertyTypeArrayOfPrimitive itemsType)
                             arrayProperty])
              | None =>
                  let '(items', warnings, result) :=
                    self (c_type items) (propertyName ++ "[]") items isRequired true true in
                  match result with
                  | Thrown error => (setItems (Some items') schema, warnings, Thrown error)
                  | Normal objectProperty =>
                      (setItems (Some items') schema, warnings,
                       Normal [objectProperty; arrayProperty])
                  end
              end
          end
      end
    else if String.eqb t "combination" then
      match TypeDefinitionCombinationProperty propertyName schema isRequired with
      | Thrown error => (schema, [], Thrown error)
      | Normal combinationProperty => (schema, [], Normal [combinationProperty])
      end
    else (schema, [UnknownTypeOfSchemaDefinition ty], Normal [])
  end.

(** The callback of [Object.keys(contract.properties).forEach]: the [try]
    block and its [catch].  It returns the fragment of the property after the
    call, the warnings and the properties pushed. *)
Definition forEachCallback
  (self : option string -> string -> SchemaObjectContract -> bool -> bool -> bool -> Built)
  (required : option (list string)) (nested : bool)
  (propertyName : string) (entry : option SchemaObjectContract)
  : option SchemaObjectContract * list Warning * list TypeDefinitionProperty :=
  match entry with
  | None => (None, [], [])
  | Some propertySchemaObject =>
      let '(schema', warnings, result) :=
        tryBlock self required nested propertyName propertySchemaObject in
      match result with
      | Normal pushed => (Some schema', warnings, pushed)
      | Thrown error =>
          (Some schema',
           (warnings ++ [UnableToProcessObjectProperty propertyName error])%list, [])
      end
  end.

(** [Object.keys(properties).forEach(callback)]: the callbacks run in the
    order of the keys; the fragments after the calls, the warnings and the
    pushed properties are collected in that order. *)
Fixpoint forEachKey
  (callback : string -> option SchemaObjectContract ->
              option SchemaObjectContract * list Warning * list TypeDefinitionProperty)
  (keys : list (string * option SchemaObjectContract))
  : list (string * option SchemaObjectContract) * list Warning * list TypeDefinitionProperty :=
  match keys with
  | [] => ([], [], [])
  | (propertyName, entry) :: rest =>
      let '(entry', warnings1, pushed) := callback propertyName entry in
      let '(rest', warnings2, props) := forEachKey callback rest in
      ((propertyName, entry') :: rest', (warnings1 ++ warnings2)%list, (pushed ++ props)%list)
  end.

(** The constructor of [TypeDefinitionObjectProperty] run on [contract] once
    [contract.type] has been assigned [ty].  The recursion is on the
    fragment; [TypeDefinitionObjectProperty_setType] shows that it is the
    constructor on [setType ty contract]. *)
Fixpoint ObjectProperty_at (ty : option string) (name : string)
  (contract : SchemaObjectContract) (isRequired isArray nested : bool)
  {struct contract} : Built :=
  let contract0 := setType ty contract in
  let this := setKind "object"
    (newTypeDefinitionProperty ClassObjectProperty name contract0 isRequired isArray) in
  match truthy (c_ref contract) with
  | Some ref =>
      (contract0, [],
       Normal (setPType (TypeDefinitionPropertyTypeReference (getTypeNameFromRef ref)) this))
  | None =>
    match c_items contract with
    | Some items =>
        let type := TypeDefinitionPropertyTypePrimitive "object" in
        let type := match truthy (c_type items) with
                    | Some itemsType => TypeDefinitionPropertyTypePrimitive itemsType
                    | None => type
                    end in
        let type := match truthy (c_ref items) with
                    | Some ref => TypeDefinitionPropertyTypeReference (getTypeNameFromRef ref)
                    | None => type
                    end in
        (contract0, [],
         Normal (setKind "indexer"
                   (setPProperties [TypeDefinitionIndexerProperty type] this)))
    | None =>
      let this := match c_enum contract with
                  | Some values => setKind "enum" (setEnum values this)
                  | None => this
                  end in
      match c_properties contract with
      | None => (contract0, [], Normal this)
      | Some declared =>
          let '(declared', warnings, props) :=
            forEachKey (forEachCallback ObjectProperty_at (c_required contract) nested)
              declared in
          (setProperties (Some declared') contract0, warnings,
           Normal (setPProperties props this))
      end
    end
  end.

(** [new TypeDefinitionObjectProperty(name, contract, isRequired, isArray, nested)]. *)
Definition TypeDefinitionObjectProperty (name : string) (contract : SchemaObjectContract)
  (isRequired isArray nested : bool) : Built :=
  ObjectProperty_at (c_type contract) name contract isRequired isArray nested.

(** [new TypeDefinition(name, contract)]. *)
Definition TypeDefinition (name : string) (contract : SchemaObjectContract) : Built :=
  let '(contract', warnings, result) :=
    TypeDefinitionObjectProperty name contract true false false in
  match result with
  | Thrown error => (contract', warnings, Thrown error)
  | Normal this => (contract', warnings, Normal (setName name (setClass ClassTypeDefinition this)))
  end.

(** The callback as the constructor running on [contract] uses it. *)
Definition declaredPropertyCallback (contract : SchemaObjectContract) (nested : bool)
  : string -> option SchemaObjectContract ->
    option SchemaObjectContract * list Warning * list TypeDefinitionProperty :=
  forEachCallback ObjectProperty_at (c_required contract) nested.

(** The three components of a [Built]. *)
Definition fragmentAfter (b : Built) : SchemaObjectContract := fst (fst b).
Definition warningsOf (b : Built) : list Warning := snd (fst b).
Definition completionOf (b : Built) : Completion TypeDefinitionProperty := snd b.

(** The object under construction when the properties loop starts: the
    base constructor, [kind = "object"], and the [enum] branch. *)
Definition objectBeforeProperties (name : string) (contract : SchemaObjectContract)
  (isRequired isArray : bool) : TypeDefinitionProperty :=
  let this := setKind "object"
    (newTypeDefinitionProperty ClassObjectProperty name contract isRequired isArray) in
  match c_enum contract with
  | Some values => setKind "enum" (setEnum values this)
  | None => this
  end.

(** The [try] block as the constructor running on [contract] uses it. *)
Definition declaredPropertyTry (contract : SchemaObjectContract) (nested : bool)
  : string -> SchemaObjectContract ->
    SchemaObjectContract * list Warning * Completion (list TypeDefinitionProperty) :=
  tryBlock ObjectProperty_at (c_required contract) nested.

(** The properties pushed by the loop of [contract] for the keys [keys]. *)
Definition pushedFor (contract : SchemaObjectContract) (nested : bool)
  (keys : list (string * option SchemaObjectContract)) : list TypeDefinitionProperty :=
  snd (forEachKey (declaredPropertyCallback contract nested) keys).

(** The warnings logged by the loop of [contract] for the keys [keys]. *)
Definition warnedFor (contract : SchemaObjectContract) (nested : bool)
  (keys : list (string * option SchemaObjectContract)) : list Warning :=
  snd (fst (forEachKey (declaredPropertyCallback contract nested) keys)).

(** [contract] with its [properties] replaced by [keys]. *)
Definition withDeclared (keys : list (string * option SchemaObjectContract))
  (contract : SchemaObjectContract) : SchemaObjectContract :=
  setProperties (Some keys) contract.

(** Running the constructor on the fragment a first run has left gives what
    the first run gave. *)
Definition builtAgainTheSame (c : SchemaObjectContract) : Prop :=
  forall ty name isRequired isArray nested,
    ObjectProperty_at ty name
      (fragmentAfter (ObjectProperty_at ty name c isRequired isArray nested))
      isRequired isArray nested
    = ObjectProperty_at ty name c isRequired isArray nested.

(** ** Statements of the specification *)

(** The combination kind by the precedence [not] over [oneOf] over [anyOf]
    over [allOf], written from the specification's sentence to be compared
    with [combinationSelection]. *)
Definition combinationKindByPrecedence (contract : SchemaObjectContract) : option string :=
  if present (c_not contract) then Some "Not"
  else if present (c_oneOf contract) then Some "One of"
  else if present (c_anyOf contract) then Some "Any of"
  else if present (c_allOf contract) then Some "All of"
  else None.

(** [FlattenedLeaf nested prefix leaf dotted]: [leaf] is reached from
    [nested] through object properties only, it is not an object property
    itself, and [dotted] is [prefix] followed by the names on the way down to
    it, joined with dots.  Written from the specification's description of
    flattening to be compared with [flattenNestedObjects]. *)
Inductive FlattenedLeaf :
  TypeDefinitionProperty -> string -> TypeDefinitionProperty -> string -> Prop :=
| FlattenedLeaf_child nested prefix children leaf :
    properties nested = Some children ->
    In leaf children ->
    instanceofObjectProperty (class leaf) = false ->
    FlattenedLeaf nested prefix leaf (prefix ++ "." ++ name leaf)
| FlattenedLeaf_descend nested prefix children object leaf dotted :
    properties nested = Some children ->
    In object children ->
    instanceofObjectProperty (class object) = true ->
    FlattenedLeaf object (prefix ++ "." ++ name object) leaf dotted ->
    FlattenedLeaf nested prefix leaf dotted.

(** ** Fragments used as examples *)

Definition ofType (ty : string) : SchemaObjectContract :=
  setType (Some ty) emptyContract.

Definition withProperties (declared : list (string * SchemaObjectContract))
  (c : SchemaObjectContract) : SchemaObjectContract :=
  setProperties (Some (map (fun kv => (fst kv, Some (snd kv))) declared)) c.

Definition withItems (items : SchemaObjectContract) (c : SchemaObjectContract) :=
  setItems (Some items) c.

Definition withFormat (format : string) (c : SchemaObjectContract) : SchemaObjectContract :=
  mkSchema (c_type c) (Some format) (c_title c) (c_description c) (c_example c) (c_enum c)
           (c_properties c) (c_required c) (c_items c) (c_ref c)
           (c_allOf c) (c_anyOf c) (c_oneOf c) (c_not c).

Definition withRef (ref : string) (c : SchemaObjectContract) : SchemaObjectContract :=
  mkSchema (c_type c) (c_format c) (c_title c) (c_description c) (c_example c) (c_enum c)
           (c_properties c) (c_required c) (c_items c) (Some ref)
           (c_allOf c) (c_anyOf c) (c_oneOf c) (c_not c).

Definition withRequired (names : list string) (c : SchemaObjectContract) :=
  mkSchema (c_type c) (c_format c) (c_title c) (c_description c) (c_example c) (c_enum c)
           (c_properties c) (Some names) (c_items c) (c_ref c)
           (c_allOf c) (c_anyOf c) (c_oneOf c) (c_not c).

Definition withAnyOf (members : list SchemaObjectContract) (c : SchemaObjectContract) :=
  mkSchema (c_type c) (c_format c) (c_title c) (c_description c) (c_example c) (c_enum c)
           (c_properties c) (c_required c) (c_items c) (c_ref c)
           (c_allOf c) (Some members) (c_oneOf c) (c_not c).

Definition withNot (v : SchemaObjectContract + list SchemaObjectContract)
  (c : SchemaObjectContract) :=
  mkSchema (c_type c) (c_format c) (c_title c) (c_description c) (c_example c) (c_enum c)
           (c_properties c) (c_required c) (c_items c) (c_ref c)
           (c_allOf c) (c_anyOf c) (c_oneOf c) (Some v).

(** [{properties: {a: {type: "object", properties: {b: {type: "string"}}}}}] *)
Definition nestedObjectExample : SchemaObjectContract :=
  withProperties
    [("a", withProperties [("b", ofType "string")] (ofType "object"))] emptyContract.

(** [{properties: {a: {type: "array", items: {properties:
      {b: {type: "object", properties: {c: {type: "string"}}}}}}}}] *)
Definition objectArrayExample : SchemaObjectContract :=
  withProperties
    [("a", withItems
             (withProperties
                [("b", withProperties [("c", ofType "string")] (ofType "object"))]
                emptyContract)
             (ofType "array"))] emptyContract.

(** [{properties: {a: {not: {type: "string"}}, b: {type: "string"}}}] *)
Definition notSingleExample : SchemaObjectContract :=
  withProperties
    [("a", withNot (inl (ofType "string")) emptyContract); ("b", ofType "string")]
    emptyContract.

(** [{type: "string", format: "date-time"}] *)
Definition dateTimeExample : SchemaObjectContract :=
  withFormat "date-time" (ofType "string").

(** [{type: "string", items: {type: "integer"}}] *)
Definition stringWithItemsExample : SchemaObjectContract :=
  withItems (ofType "integer") (ofType "string").

(** [{anyOf: [{type: "string"}], not: [{$ref: "#/components/schemas/Pet"}]}] *)
Definition anyOfNotExample : SchemaObjectContract :=
  withNot (inr [withRef "#/components/schemas/Pet" emptyContract])
    (withAnyOf [ofType "string"] emptyContract).

(** [{required: ["other"], items: {$ref: "#/components/schemas/Pet"}}] *)
Definition indexerExample : SchemaObjectContract :=
  withRequired ["other"]
    (withItems (withRef "#/components/schemas/Pet" emptyContract) emptyContract).

(** [{properties: {a: {type: "string"}, bad: {type: "combination"},
                   c: {type: "integer"}}}] *)
Definition throwingChildExample : SchemaObjectContract :=
  withProperties
    [("a", ofType "string"); ("bad", ofType "combination"); ("c", ofType "integer")]
    emptyContract.

(** [{properties: {a: {type: "array"}, b: {type: "string"}}}] *)
Definition arrayWithoutItemsExample : SchemaObjectContract :=
  withProperties [("a", ofType "array"); ("b", ofType "string")] emptyContract.

(** ** Induction principles for the two trees *)

(** Induction on a property tree: the properties of a node are smaller. *)
Section PropertyInduction.
Variable P : TypeDefinitionProperty -> Prop.
Hypothesis step :
  forall p,
    match properties p with
    | Some children => Forall P children
    | None => True
    end -> P p.

Fixpoint TypeDefinitionProperty_tree_ind (p : TypeDefinitionProperty) : P p :=
  match p with
  | mkProperty cl n d t k e ef r a en children =>
      step (mkProperty cl n d t k e ef r a en children)
        (match children
               return match children with
                      | Some l => Forall P l
                      | None => True
                      end
         with
         | Some l =>
             (fix all (l : list TypeDefinitionProperty) : Forall P l :=
                match l with
                | [] => Forall_nil P
                | x :: rest =>
                    Forall_cons x (TypeDefinitionProperty_tree_ind x) (all rest)
                end) l
         | None => I
         end)
  end.
End PropertyInduction.

(** Induction on a fragment: its declared properties and its items are
    smaller. *)
Section ContractInduction.
Variable P : SchemaObjectContract -> Prop.
Hypothesis step :
  forall c,
    match c_properties c with
    | Some declared =>
        Forall (fun kv => match snd kv with
                          | Some child => P child
                          | None => True
                          end) declared
    | None => True
    end ->
    match c_items c with
    | Some items => P items
    | None => True
    end -> P c.

Fixpoint SchemaObjectContract_tree_ind (c : SchemaObjectContract) : P c :=
  match c with
  | mkSchema ty f ti d ex en ps rq it rf al an on nt =>
      step (mkSchema ty f ti d ex en ps rq it rf al an on nt)
        (match ps
               return match ps with
                      | Some declared =>
                          Forall (fun kv => match snd kv with
                                            | Some child => P child
                                            | None => True
                                            end) declared
                      | None => True
                      end
         with
         | Some declared =>
             (fix all (l : list (string * option SchemaObjectContract))
                : Forall (fun kv => match snd kv with
                                    | Some child => P child
                                    | None => True
                                    end) l :=
                match l with
                | [] => Forall_nil _
                | (k, entry) :: rest =>
                    Forall_cons (k, entry)
                      (match entry
                             return match entry with
                                    | Some child => P child
                                    | None => True
                                    end
                       with
                       | Some child => SchemaObjectContract_tree_ind child
                       | None => I
                       end)
                      (all rest)
                end) declared
         | None => I
         end)
        (match it
               return match it with
                      | Some items => P items
                      | None => True
                      end
         with
         | Some items => SchemaObjectContract_tree_ind items
         | None => I
         end)
  end.
End ContractInduction.

(** ** Notions used to state further properties *)

(** The string contains the character "/". *)
Fixpoint hasSlash (s : string) : bool :=
  match s with
  | EmptyString => false
  | String ch rest => Ascii.eqb ch "/"%char || hasSlash rest
  end.

(** [NodeOf tree p]: [p] is [tree] or one of the properties below it. *)
Inductive NodeOf : TypeDefinitionProperty -> TypeDefinitionProperty -> Prop :=
| NodeOf_self tree : NodeOf tree tree
| NodeOf_below tree children child p :
    properties tree = Some children ->
    In child children ->
    NodeOf child p ->
    NodeOf tree p.

Definition isCombinationType (t : TypeDefinitionPropertyType) : bool :=
  match t with
  | TypeDefinitionPropertyTypeCombination _ _ => true
  | _ => false
  end.

Definition isArrayType (t : TypeDefinitionPropertyType) : bool :=
  match t with
  | TypeDefinitionPropertyTypeArrayOfPrimitive _
  | TypeDefinitionPropertyTypeArrayOfReference _ => true
  | _ => false
  end.

(** A member of a combination that is a plain primitive or reference. *)
Definition isPlainMember (t : TypeDefinitionPropertyType) : bool :=
  match t with
  | TypeDefinitionPropertyTypePrimitive _
  | TypeDefinitionPropertyTypeReference _ => true
  | _ => false
  end.

(** What the constructors establish for an object of each class. *)
Definition nodeInvariant (p : TypeDefinitionProperty) : Prop :=
  exampleFormat p = "json" /\
  match class p with
  | ClassPrimitiveProperty =>
      kind p = Some "primitive" /\ properties p = None /\ enum p = None /\
      isCombinationType (type p) = false /\
      (isArrayType (type p) = true -> isArray p = true)
  | ClassEnumerationProperty =>
      kind p = Some "enum" /\ properties p = None /\ enum p = None /\
      isCombinationType (type p) = false /\ isArrayType (type p) = false /\
      isArray p = false
  | ClassCombinationProperty =>
      kind p = Some "combination" /\ properties p = None /\ enum p = None /\
      (exists combinationType members,
         type p = TypeDefinitionPropertyTypeCombination combinationType members /\
         forallb isPlainMember members = true) /\
      isArray p = false
  | ClassObjectProperty | ClassTypeDefinition =>
      (kind p = Some "object" \/ kind p = Some "enum" \/ kind p = Some "indexer") /\
      isCombinationType (type p) = false /\ isArrayType (type p) = false /\
      (present (enum p) = true <-> kind p = Some "enum")
  | ClassIndexerProperty =>
      kind p = Some "indexer" /\ properties p = None /\ enum p = None /\
      isCombinationType (type p) = false /\ isArrayType (type p) = false /\
      name p = "[]" /\ required p = true /\ isArray p = false
  end.

(** [Q] holds of every node of [tree]. *)
Definition AllNodes (Q : TypeDefinitionProperty -> Prop) (tree : TypeDefinitionProperty)
  : Prop :=
  forall p, NodeOf tree p -> Q p.

(** The type names the [switch] of the properties loop has a case for. *)
Definition isKnownTypeName (ty : option string) : bool :=
  match ty with
  | Some t =>
      isPrimitiveTypeName t || String.eqb t "object" || String.eqb t "array"
      || String.eqb t "combination"
  | None => false
  end.

(** None of [allOf], [anyOf], [oneOf], [not] is on the fragment. *)
Definition noCombinationKey (c : SchemaObjectContract) : Prop :=
  c_allOf c = None /\ c_anyOf c = None /\ c_oneOf c = None /\ c_not c = None.

(** Every node of what the object constructor builds from [c] keeps
    [nodeInvariant]. *)
Definition builtWellFormed (c : SchemaObjectContract) : Prop :=
  forall ty name isRequired isArray nested this,
    completionOf (ObjectProperty_at ty name c isRequired isArray nested) = Normal this ->
    AllNodes nodeInvariant this.


(** ** Further example fragments *)

Definition withEnum (values : list JsonValue) (c : SchemaObjectContract) :=
  mkSchema (c_type c) (c_format c) (c_title c) (c_description c) (c_example c) (Some values)
           (c_properties c) (c_required c) (c_items c) (c_ref c)
           (c_allOf c) (c_anyOf c) (c_oneOf c) (c_not c).

(** [{type: "array", items: {$ref: "#/components/schemas/Widget"}}] *)
Definition widgetArrayExample : SchemaObjectContract :=
  withItems (withRef "#/components/schemas/Widget" emptyContract) (ofType "array").

(** [{items: {properties: {id: {type: "integer"}}}}] *)
Definition rowsExample : SchemaObjectContract :=
  withItems (withProperties [("id", ofType "integer")] emptyContract) emptyContract.

(** [{$ref: "#/components/schemas/Pet"}] *)
Definition petReferenceExample : SchemaObjectContract :=
  withRef "#/components/schemas/Pet" emptyContract.

(** [{properties: {pet: {anyOf: [..], not: [..]}, tags: {type: "array",
      items: {$ref: ..}}, rows: {items: {properties: {id: ..}}}}}] *)
Definition mixedExample : SchemaObjectContract :=
  withProperties
    [("pet", anyOfNotExample); ("tags", widgetArrayExample); ("rows", rowsExample)]
    emptyContract.

(** [{properties: {owner: {$ref: ..}, name: {type: "string"}}}] *)
Definition ownerExample : SchemaObjectContract :=
  withProperties [("owner", petReferenceExample); ("name", ofType "string")] emptyContract.

(** * Properties of the constructors *)

(** ** The constructor equation *)

(** One step of the object constructor, as the source reads. *)
Lemma ObjectProperty_at_unfold ty name contract isRequired isArray nested :
  ObjectProperty_at ty name contract isRequired isArray nested =
  let contract0 := setType ty contract in
  let this := setKind "object"
    (newTypeDefinitionProperty ClassObjectProperty name contract0 isRequired isArray) in
  match truthy (c_ref contract) with
  | Some ref =>
      (contract0, [],
       Normal (setPType (TypeDefinitionPropertyTypeReference (getTypeNameFromRef ref)) this))
  | None =>
    match c_items contract with
    | Some items =>
        let type := TypeDefinitionPropertyTypePrimitive "object" in
        let type := match truthy (c_type items) with
                    | Some itemsType => TypeDefinitionPropertyTypePrimitive itemsType
                    | None => type
                    end in
        let type := match truthy (c_ref items) with
                    | Some ref => TypeDefinitionPropertyTypeReference (getTypeNameFromRef ref)
                    | None => type
                    end in
        (contract0, [],
         Normal (setKind "indexer"
                   (setPProperties [TypeDefinitionIndexerProperty type] this)))
    | None =>
      let this := match c_enum contract with
                  | Some values => setKind "enum" (setEnum values this)
                  | None => this
                  end in
      match c_properties contract with
      | None => (contract0, [], Normal this)
      | Some declared =>
          let '(declared', warnings, props) :=
            forEachKey (forEachCallback ObjectProperty_at (c_required contract) nested)
              declared in
          (setProperties (Some declared') contract0, warnings,
           Normal (setPProperties props this))
      end
    end
  end.
Proof. destruct contract; reflexivity. Qed.

Lemma setType_c_type (c : SchemaObjectContract) : setType (c_type c) c = c.
Proof. destruct c; reflexivity. Qed.

(** The constructor run "at" a type is the constructor on the fragment whose
    [type] has been assigned. *)
Lemma TypeDefinitionObjectProperty_setType ty name contract isRequired isArray nested :
  ObjectProperty_at ty name contract isRequired isArray nested =
  TypeDefinitionObjectProperty name (setType ty contract) isRequired isArray nested.
Proof. destruct contract; reflexivity. Qed.

(** The indexer property is the object constructor on [{}] followed by the
    two assignments of its own constructor. *)
Lemma TypeDefinitionIndexerProperty_super ty :
  exists this,
    TypeDefinitionObjectProperty "[]" emptyContract true false false
    = (emptyContract, [], Normal this) /\
    TypeDefinitionIndexerProperty ty
    = setPType ty (setKind "indexer" (setClass ClassIndexerProperty this)).
Proof. eexists; split; reflexivity. Qed.

(** ** The object constructor never throws *)

Lemma ObjectProperty_at_completes ty name contract isRequired isArray nested :
  exists contract' warnings this,
    ObjectProperty_at ty name contract isRequired isArray nested
    = (contract', warnings, Normal this).
Proof.
  rewrite ObjectProperty_at_unfold; cbv zeta.
  destruct (truthy (c_ref contract)); [eauto|].
  destruct (c_items contract); [eauto|].
  destruct (c_properties contract) as [declared|]; [|eauto].
  destruct (forEachKey _ declared) as [[declared' warnings] props]; eauto.
Qed.

(** ** The loop over the declared properties *)

Lemma forEachKey_app callback keys1 keys2 :
  forEachKey callback (keys1 ++ keys2)%list =
  let '(d1, w1, p1) := forEachKey callback keys1 in
  let '(d2, w2, p2) := forEachKey callback keys2 in
  ((d1 ++ d2)%list, (w1 ++ w2)%list, (p1 ++ p2)%list).
Proof.
  induction keys1 as [|[k entry] keys1 IH]; simpl.
  - destruct (forEachKey callback keys2) as [[d2 w2] p2]; reflexivity.
  - rewrite IH.
    destruct (callback k entry) as [[e' w] ps].
    destruct (forEachKey callback keys1) as [[d1 w1] p1].
    destruct (forEachKey callback keys2) as [[d2 w2] p2].
    now rewrite <- !app_assoc.
Qed.

(** ** Combination properties *)

(** The selection made by the four [if]s is the one of the precedence. *)
Lemma combinationSelection_kind contract :
  fst (combinationSelection contract) = combinationKindByPrecedence contract.
Proof.
  unfold combinationSelection, combinationKindByPrecedence.
  destruct (c_not contract), (c_oneOf contract), (c_anyOf contract), (c_allOf contract);
    reflexivity.
Qed.

Lemma combinationSelection_not contract v :
  c_not contract = Some v -> combinationSelection contract = (Some "Not", Some v).
Proof. unfold combinationSelection; intros ->; reflexivity. Qed.

Lemma combinationSelection_array contract :
  c_not contract = None ->
  snd (combinationSelection contract) =
  match c_oneOf contract with
  | Some a => Some (inr a)
  | None => match c_anyOf contract with
            | Some a => Some (inr a)
            | None => match c_allOf contract with
                      | Some a => Some (inr a)
                      | None => None
                      end
            end
  end.
Proof.
  unfold combinationSelection; intros ->.
  destruct (c_oneOf contract), (c_anyOf contract), (c_allOf contract); reflexivity.
Qed.

(** The combination constructor does not depend on [contract.type]: the
    type it derives from it is overwritten. *)
Lemma TypeDefinitionCombinationProperty_setType ty name contract isRequired :
  TypeDefinitionCombinationProperty name (setType ty contract) isRequired
  = TypeDefinitionCombinationProperty name contract isRequired.
Proof.
  unfold TypeDefinitionCombinationProperty.
  replace (combinationSelection (setType ty contract)) with (combinationSelection contract)
    by (destruct contract; reflexivity).
  destruct (combinationSelection contract) as [[k|] [[single|array]|]]; reflexivity.
Qed.

Lemma normalizedType_combination contract :
  present (c_allOf contract) || present (c_anyOf contract)
  || present (c_oneOf contract) || present (c_not contract) = true ->
  normalizedType contract = Some "combination".
Proof. unfold normalizedType; intros ->; reflexivity. Qed.

Lemma combinationKindByPrecedence_present contract k :
  combinationKindByPrecedence contract = Some k ->
  present (c_allOf contract) || present (c_anyOf contract)
  || present (c_oneOf contract) || present (c_not contract) = true.
Proof.
  unfold combinationKindByPrecedence.
  destruct (c_not contract), (c_oneOf contract), (c_anyOf contract), (c_allOf contract);
    simpl; congruence.
Qed.

(** C3: when a fragment carries one or several of allOf, anyOf, oneOf and
    not (arrays), the combination property built from it has the kind given
    by the precedence not over oneOf over anyOf over allOf ("Not", "One of",
    "Any of", "All of"); so anyOf:[X] with not:[Y] gives the kind of not.
    The same property is what the properties loop pushes for a declared
    property with that fragment. *)
Theorem combination_kind_by_precedence name contract isRequired k :
  combinationKindByPrecedence contract = Some k ->
  (forall single, c_not contract <> Some (inl single)) ->
  exists members,
    TypeDefinitionCombinationProperty name contract isRequired
    = Normal (setKind "combination"
                (setPType (TypeDefinitionPropertyTypeCombination k members)
                   (newTypeDefinitionProperty ClassCombinationProperty name contract
                      isRequired false))) /\
    forall self required nested,
      forEachCallback self required nested name (Some contract)
      = (Some (setType (Some "combination") contract), [],
         [setKind "combination"
            (setPType (TypeDefinitionPropertyTypeCombination k members)
               (newTypeDefinitionProperty ClassCombinationProperty name contract
                  (isRequiredIn required name) false))]).
Proof.
  intros Hk Hnot.
  assert (Hsel : exists array, combinationSelection contract = (Some k, Some (inr array))).
  { pose proof (combinationSelection_kind contract) as Hfst.
    rewrite Hk in Hfst.
    destruct (c_not contract) as [[single|array]|] eqn:En.
    - exfalso; now apply (Hnot single).
    - rewrite (combinationSelection_not _ _ En) in *. simpl in Hfst.
      exists array. now inversion Hfst.
    - pose proof (combinationSelection_array _ En) as Hsnd.
      destruct (combinationSelection contract) as [kk arr]; simpl in *; subst kk.
      unfold combinationKindByPrecedence in Hk. rewrite En in Hk; simpl in Hk.
      destruct (c_oneOf contract); [eexists; subst; reflexivity|].
      destruct (c_anyOf contract); [eexists; subst; reflexivity|].
      destruct (c_allOf contract); [eexists; subst; reflexivity|].
      discriminate. }
  destruct Hsel as [array Hsel].
  exists (map combinationMember array). split.
  - unfold TypeDefinitionCombinationProperty. now rewrite Hsel.
  - intros self required nested.
    unfold forEachCallback, tryBlock.
    rewrite (normalizedType_combination _ (combinationKindByPrecedence_present _ _ Hk)).
    cbn [isPrimitiveTypeName String.eqb Ascii.eqb Bool.eqb orb].
    rewrite TypeDefinitionCombinationProperty_setType.
    unfold TypeDefinitionCombinationProperty. now rewrite Hsel.
Qed.

(** ** The properties list of an object with declared properties *)

Lemma pushedFor_app contract nested keys1 keys2 :
  pushedFor contract nested (keys1 ++ keys2)
  = (pushedFor contract nested keys1 ++ pushedFor contract nested keys2)%list.
Proof.
  unfold pushedFor. rewrite forEachKey_app.
  destruct (forEachKey _ keys1) as [[d1 w1] p1].
  destruct (forEachKey _ keys2) as [[d2 w2] p2]. reflexivity.
Qed.

Lemma warnedFor_app contract nested keys1 keys2 :
  warnedFor contract nested (keys1 ++ keys2)
  = (warnedFor contract nested keys1 ++ warnedFor contract nested keys2)%list.
Proof.
  unfold warnedFor. rewrite forEachKey_app.
  destruct (forEachKey _ keys1) as [[d1 w1] p1].
  destruct (forEachKey _ keys2) as [[d2 w2] p2]. reflexivity.
Qed.

Lemma pushedFor_cons contract nested k entry keys :
  pushedFor contract nested ((k, entry) :: keys)
  = (snd (declaredPropertyCallback contract nested k entry)
     ++ pushedFor contract nested keys)%list.
Proof.
  unfold pushedFor; simpl.
  destruct (declaredPropertyCallback contract nested k entry) as [[e w] ps].
  destruct (forEachKey _ keys) as [[d1 w1] p1]. reflexivity.
Qed.

Lemma warnedFor_cons contract nested k entry keys :
  warnedFor contract nested ((k, entry) :: keys)
  = (snd (fst (declaredPropertyCallback contract nested k entry))
     ++ warnedFor contract nested keys)%list.
Proof.
  unfold warnedFor; simpl.
  destruct (declaredPropertyCallback contract nested k entry) as [[e w] ps].
  destruct (forEachKey _ keys) as [[d1 w1] p1]. reflexivity.
Qed.

(** The loop only reads [required] of the object it runs in. *)
Lemma declaredPropertyCallback_withDeclared keys contract nested :
  declaredPropertyCallback (withDeclared keys contract) nested
  = declaredPropertyCallback contract nested.
Proof. destruct contract; reflexivity. Qed.

(** An object fragment, with neither [$ref] nor [items], gets as
    [properties] what its loop pushes, and logs what its loop logs. *)
Lemma ObjectProperty_at_declared ty name contract isRequired isArray nested declared :
  truthy (c_ref contract) = None ->
  c_items contract = None ->
  c_properties contract = Some declared ->
  completionOf (ObjectProperty_at ty name contract isRequired isArray nested)
  = Normal (setPProperties (pushedFor contract nested declared)
              (objectBeforeProperties name (setType ty contract) isRequired isArray))
  /\ warningsOf (ObjectProperty_at ty name contract isRequired isArray nested)
     = warnedFor contract nested declared.
Proof.
  intros Href Hitems Hprops.
  rewrite ObjectProperty_at_unfold; cbv zeta.
  rewrite Href, Hitems, Hprops.
  unfold pushedFor, warnedFor, declaredPropertyCallback.
  destruct (forEachKey _ declared) as [[d w] ps].
  unfold completionOf, warningsOf, objectBeforeProperties; simpl.
  replace (c_enum (setType ty contract)) with (c_enum contract)
    by (destruct contract; reflexivity).
  split; reflexivity.
Qed.

Lemma TypeDefinitionObjectProperty_declared name contract isRequired isArray nested declared :
  truthy (c_ref contract) = None ->
  c_items contract = None ->
  c_properties contract = Some declared ->
  completionOf (TypeDefinitionObjectProperty name contract isRequired isArray nested)
  = Normal (setPProperties (pushedFor contract nested declared)
              (objectBeforeProperties name contract isRequired isArray))
  /\ warningsOf (TypeDefinitionObjectProperty name contract isRequired isArray nested)
     = warnedFor contract nested declared.
Proof.
  intros Href Hitems Hprops. unfold TypeDefinitionObjectProperty.
  destruct (ObjectProperty_at_declared (c_type contract) name contract isRequired isArray
              nested declared Href Hitems Hprops) as [H1 H2].
  rewrite setType_c_type in H1. now split.
Qed.

(** The root is the object property renamed. *)
Lemma TypeDefinition_completion name contract :
  completionOf (TypeDefinition name contract) =
  match completionOf (TypeDefinitionObjectProperty name contract true false false) with
  | Normal this => Normal (setName name (setClass ClassTypeDefinition this))
  | Thrown error => Thrown error
  end
  /\ warningsOf (TypeDefinition name contract)
     = warningsOf (TypeDefinitionObjectProperty name contract true false false)
  /\ fragmentAfter (TypeDefinition name contract)
     = fragmentAfter (TypeDefinitionObjectProperty name contract true false false).
Proof.
  unfold TypeDefinition.
  destruct (TypeDefinitionObjectProperty name contract true false false) as [[c w] [this|e]];
    repeat split.
Qed.

(** A declared property whose callback pushes nothing can be deleted from
    the fragment without changing the object that is built. *)
Lemma declared_without_push name contract isRequired isArray nested before k entry after :
  truthy (c_ref contract) = None ->
  c_items contract = None ->
  c_properties contract = Some (before ++ (k, entry) :: after)%list ->
  snd (declaredPropertyCallback contract nested k entry) = [] ->
  exists this,
    completionOf (TypeDefinitionObjectProperty name contract isRequired isArray nested)
    = Normal this /\
    completionOf (TypeDefinitionObjectProperty name
                    (withDeclared (before ++ after) contract) isRequired isArray nested)
    = Normal this /\
    properties this
    = Some (pushedFor contract nested before ++ pushedFor contract nested after)%list.
Proof.
  intros Href Hitems Hprops Hpush.
  destruct (TypeDefinitionObjectProperty_declared name contract isRequired isArray nested
              _ Href Hitems Hprops) as [H1 _].
  assert (Href' : truthy (c_ref (withDeclared (before ++ after) contract)) = None)
    by (destruct contract; exact Href).
  assert (Hitems' : c_items (withDeclared (before ++ after) contract) = None)
    by (destruct contract; exact Hitems).
  assert (Hprops' : c_properties (withDeclared (before ++ after) contract)
                    = Some (before ++ after)%list)
    by (destruct contract; reflexivity).
  destruct (TypeDefinitionObjectProperty_declared name _ isRequired isArray nested
              _ Href' Hitems' Hprops') as [H2 _].
  eexists. split; [exact H1|]. split.
  - rewrite H2. unfold pushedFor at 1. rewrite declaredPropertyCallback_withDeclared.
    fold (pushedFor contract nested (before ++ after)).
    rewrite !pushedFor_app, pushedFor_cons, Hpush. simpl.
    reflexivity.
  - simpl. now rewrite pushedFor_app, pushedFor_cons, Hpush.
Qed.

(** ** Declared properties that are left out *)

Lemma normalizedType_plain child :
  truthy (c_ref child) = None ->
  c_items child = None ->
  c_allOf child = None -> c_anyOf child = None ->
  c_oneOf child = None -> c_not child = None ->
  normalizedType child = c_type child.
Proof.
  unfold normalizedType. intros -> -> -> -> -> ->. reflexivity.
Qed.

Lemma normalizedType_not child v :
  c_not child = Some v -> normalizedType child = Some "combination".
Proof.
  intros H. apply normalizedType_combination. rewrite H. simpl.
  now rewrite !orb_true_r.
Qed.

Lemma TypeDefinitionCombinationProperty_not_single name child isRequired single :
  c_not child = Some (inl single) ->
  TypeDefinitionCombinationProperty name child isRequired
  = Thrown TypeError_map_is_not_a_function.
Proof.
  intros H. unfold TypeDefinitionCombinationProperty.
  now rewrite (combinationSelection_not _ _ H).
Qed.

(** The callback on a property whose [not] is a single fragment: the
    exception of [combinationArray.map] is caught, a warning is logged and
    nothing is pushed. *)
Lemma forEachCallback_not_single self required nested k child single :
  c_not child = Some (inl single) ->
  forEachCallback self required nested k (Some child)
  = (Some (setType (Some "combination") child),
     [UnableToProcessObjectProperty k TypeError_map_is_not_a_function], []).
Proof.
  intros H. unfold forEachCallback, tryBlock.
  rewrite (normalizedType_not _ _ H).
  cbn [isPrimitiveTypeName String.eqb Ascii.eqb Bool.eqb orb].
  rewrite TypeDefinitionCombinationProperty_setType.
  now rewrite (TypeDefinitionCombinationProperty_not_single _ _ _ _ H).
Qed.

(** The callback on a property of type "array" without [items]: the
    callback returns before any push, and logs nothing. *)
Lemma forEachCallback_array_without_items self required nested k child :
  c_type child = Some "array" ->
  truthy (c_ref child) = None ->
  c_items child = None ->
  c_allOf child = None -> c_anyOf child = None ->
  c_oneOf child = None -> c_not child = None ->
  forEachCallback self required nested k (Some child) = (Some child, [], []).
Proof.
  intros Hty Href Hitems Hall Hany Hone Hnot.
  unfold forEachCallback, tryBlock.
  rewrite (normalizedType_plain _ Href Hitems Hall Hany Hone Hnot), Hty.
  cbn [isPrimitiveTypeName String.eqb Ascii.eqb Bool.eqb orb].
  rewrite Hitems, <- Hty, setType_c_type. reflexivity.
Qed.

(** The object constructor, and so the root constructor, always returns. *)
Lemma TypeDefinitionObjectProperty_completes name contract isRequired isArray nested :
  exists this,
    completionOf (TypeDefinitionObjectProperty name contract isRequired isArray nested)
    = Normal this.
Proof.
  unfold TypeDefinitionObjectProperty.
  destruct (ObjectProperty_at_completes (c_type contract) name contract
              isRequired isArray nested) as (c & w & this & H).
  rewrite H. now exists this.
Qed.

Lemma TypeDefinition_completes name contract :
  exists tree, completionOf (TypeDefinition name contract) = Normal tree.
Proof.
  destruct (TypeDefinition_completion name contract) as [H _]. rewrite H.
  destruct (TypeDefinitionObjectProperty_completes name contract true false false)
    as [this ->]. eauto.
Qed.

(** What the callback logs and pushes when the [try] block throws. *)
Lemma declaredPropertyCallback_thrown contract nested k child child' warnings error :
  declaredPropertyTry contract nested k child = (child', warnings, Thrown error) ->
  declaredPropertyCallback contract nested k (Some child)
  = (Some child', (warnings ++ [UnableToProcessObjectProperty k error])%list, []).
Proof.
  unfold declaredPropertyTry, declaredPropertyCallback, forEachCallback.
  now intros ->.
Qed.

(** C10: a declared property whose type is the literal "array", with no
    $ref, no items and no combination key, is left out of the parent's
    properties: its callback pushes nothing and logs nothing, the properties
    of the parent are those of the other declared properties, and the parent
    is built as it is from the fragment without that property. *)
Theorem array_without_items_omitted
  name contract isRequired isArray nested before k child after :
  truthy (c_ref contract) = None ->
  c_items contract = None ->
  c_properties contract = Some (before ++ (k, Some child) :: after)%list ->
  c_type child = Some "array" ->
  truthy (c_ref child) = None ->
  c_items child = None ->
  c_allOf child = None -> c_anyOf child = None ->
  c_oneOf child = None -> c_not child = None ->
  declaredPropertyCallback contract nested k (Some child) = (Some child, [], []) /\
  exists this,
    completionOf (TypeDefinitionObjectProperty name contract isRequired isArray nested)
    = Normal this /\
    properties this
    = Some (pushedFor contract nested before ++ pushedFor contract nested after)%list /\
    completionOf (TypeDefinitionObjectProperty name
                    (withDeclared (before ++ after) contract) isRequired isArray nested)
    = Normal this /\
    warningsOf (TypeDefinitionObjectProperty name contract isRequired isArray nested)
    = (warnedFor contract nested before ++ warnedFor contract nested after)%list.
Proof.
  intros Href Hitems Hprops Hty Hcref Hcitems Hall Hany Hone Hnot.
  pose proof (forEachCallback_array_without_items ObjectProperty_at (c_required contract)
                nested k child Hty Hcref Hcitems Hall Hany Hone Hnot) as Hcb.
  fold (declaredPropertyCallback contract nested) in Hcb.
  split; [exact Hcb|].
  destruct (declared_without_push name contract isRequired isArray nested before k
              (Some child) after Href Hitems Hprops) as (this & H1 & H2 & H3).
  { now rewrite Hcb. }
  exists this. repeat split; trivial.
  destruct (TypeDefinitionObjectProperty_declared name contract isRequired isArray nested
              _ Href Hitems Hprops) as [_ Hw].
  rewrite Hw, warnedFor_app, warnedFor_cons, Hcb. reflexivity.
Qed.

(** C5: when the construction of a declared property throws, the parent is
    still built; its properties are those pushed for the properties declared
    before it followed by those pushed for the properties declared after it,
    so the parent is the one built from the fragment without the failing
    property, and the failure is logged as a warning. *)
Theorem throwing_child_dropped
  name contract isRequired isArray nested before k child after child' warnings error :
  truthy (c_ref contract) = None ->
  c_items contract = None ->
  c_properties contract = Some (before ++ (k, Some child) :: after)%list ->
  declaredPropertyTry contract nested k child = (child', warnings, Thrown error) ->
  exists this,
    completionOf (TypeDefinitionObjectProperty name contract isRequired isArray nested)
    = Normal this /\
    properties this
    = Some (pushedFor contract nested before ++ pushedFor contract nested after)%list /\
    completionOf (TypeDefinitionObjectProperty name
                    (withDeclared (before ++ after) contract) isRequired isArray nested)
    = Normal this /\
    In (UnableToProcessObjectProperty k error)
       (warningsOf (TypeDefinitionObjectProperty name contract isRequired isArray nested)).
Proof.
  intros Href Hitems Hprops Hthrow.
  pose proof (declaredPropertyCallback_thrown _ _ _ _ _ _ _ Hthrow) as Hcb.
  destruct (declared_without_push name contract isRequired isArray nested before k
              (Some child) after Href Hitems Hprops) as (this & H1 & H2 & H3).
  { now rewrite Hcb. }
  exists this. repeat split; trivial.
  destruct (TypeDefinitionObjectProperty_declared name contract isRequired isArray nested
              _ Href Hitems Hprops) as [_ Hw].
  rewrite Hw, warnedFor_app, warnedFor_cons, Hcb. simpl.
  apply in_or_app; right. apply in_or_app; left. apply in_or_app; right. now left.
Qed.

(** C2, as the code has it: when the fragment of a declared property has
    [not] holding a single fragment, the exception raised by
    [combinationArray.map] is caught by the [catch] of the properties loop.
    The root is built, its properties are those of the other declared
    properties, and the failure is logged as a warning. *)
Theorem not_single_child_caught name contract before k child after single :
  truthy (c_ref contract) = None ->
  c_items contract = None ->
  c_properties contract = Some (before ++ (k, Some child) :: after)%list ->
  c_not child = Some (inl single) ->
  TypeDefinitionCombinationProperty k (setType (Some "combination") child)
    (isRequiredIn (c_required contract) k) = Thrown TypeError_map_is_not_a_function /\
  exists tree,
    completionOf (TypeDefinition name contract) = Normal tree /\
    properties tree
    = Some (pushedFor contract false before ++ pushedFor contract false after)%list /\
    In (UnableToProcessObjectProperty k TypeError_map_is_not_a_function)
       (warningsOf (TypeDefinition name contract)).
Proof.
  intros Href Hitems Hprops Hnot.
  split.
  { rewrite TypeDefinitionCombinationProperty_setType.
    now apply TypeDefinitionCombinationProperty_not_single with single. }
  pose proof (forEachCallback_not_single ObjectProperty_at (c_required contract)
                false k child single Hnot) as Hcb.
  fold (declaredPropertyCallback contract false) in Hcb.
  destruct (declared_without_push name contract true false false before k
              (Some child) after Href Hitems Hprops) as (this & H1 & H2 & H3).
  { now rewrite Hcb. }
  destruct (TypeDefinition_completion name contract) as (Hc & Hw & _).
  rewrite Hc, Hw, H1.
  eexists. split; [reflexivity|]. split; [exact H3|].
  destruct (TypeDefinitionObjectProperty_declared name contract true false false
              _ Href Hitems Hprops) as [_ Hw'].
  rewrite Hw', warnedFor_app, warnedFor_cons, Hcb. simpl.
  apply in_or_app; right. now left.
Qed.

(** ** Which declared properties throw, and what nested objects carry *)

(** The [try] block throws exactly when the property is dispatched to the
    combination constructor and that constructor throws. *)
Lemma declaredPropertyTry_thrown_iff contract nested k child error :
  snd (declaredPropertyTry contract nested k child) = Thrown error <->
  normalizedType child = Some "combination" /\
  TypeDefinitionCombinationProperty k child (isRequiredIn (c_required contract) k)
  = Thrown error.
Proof.
  unfold declaredPropertyTry, tryBlock.
  rewrite TypeDefinitionCombinationProperty_setType.
  split.
  - destruct (normalizedType child) as [t|]; [|discriminate].
    destruct (isPrimitiveTypeName t); [destruct (present _); discriminate|].
    destruct (String.eqb t "object").
    { destruct (ObjectProperty_at_completes (Some t) k child
                  (isRequiredIn (c_required contract) k) true true) as (c & w & p & ->).
      destruct (negb nested); discriminate. }
    destruct (String.eqb t "array").
    { destruct (c_items child) as [items|]; [|discriminate].
      destruct (truthy (c_ref items)); [discriminate|].
      destruct (truthy (c_type items)); [discriminate|].
      destruct (ObjectProperty_at_completes (c_type items) (k ++ "[]") items
                  (isRequiredIn (c_required contract) k) true true) as (c & w & p & ->).
      discriminate. }
    destruct (String.eqb t "combination") eqn:Hcomb; [|discriminate].
    apply String.eqb_eq in Hcomb; subst t.
    destruct (TypeDefinitionCombinationProperty _ _ _); [discriminate|].
    simpl. intros H; inversion H. now split.
  - intros [-> ->]. reflexivity.
Qed.

(** The object constructor keeps the [isArray] it is given. *)
Lemma ObjectProperty_at_isArray ty name contract isRequired isArray0 nested this :
  completionOf (ObjectProperty_at ty name contract isRequired isArray0 nested) = Normal this ->
  isArray this = isArray0.
Proof.
  rewrite ObjectProperty_at_unfold; cbv zeta.
  destruct (truthy (c_ref contract)); [intros H; inversion H; reflexivity|].
  destruct (c_items contract); [intros H; inversion H; reflexivity|].
  destruct (c_properties contract) as [declared|].
  - destruct (forEachKey _ declared) as [[d w] ps].
    intros H; inversion H. destruct (c_enum contract); reflexivity.
  - intros H; inversion H. destruct (c_enum contract); reflexivity.
Qed.

(** In a nested build every declared property dispatched to the "object"
    case is pushed as one object property with [isArray = true]. *)
Lemma nested_object_child_pushed required k child :
  normalizedType child = Some "object" ->
  exists p,
    snd (forEachCallback ObjectProperty_at required true k (Some child)) = [p] /\
    instanceofObjectProperty (class p) = true /\
    isArray p = true.
Proof.
  intros Hty. unfold forEachCallback, tryBlock. rewrite Hty.
  cbn [isPrimitiveTypeName String.eqb Ascii.eqb Bool.eqb orb].
  destruct (ObjectProperty_at (Some "object") k child (isRequiredIn required k) true true)
    as [[c w] r] eqn:Hbuild.
  destruct (ObjectProperty_at_completes (Some "object") k child (isRequiredIn required k)
              true true) as (c' & w' & p & Hp).
  rewrite Hbuild in Hp. inversion Hp; subst. simpl.
  exists p. split; [reflexivity|]. split.
  - revert Hbuild. rewrite ObjectProperty_at_unfold; cbv zeta.
    destruct (truthy (c_ref child)); [intros H; inversion H; reflexivity|].
    destruct (c_items child); [intros H; inversion H; reflexivity|].
    destruct (c_properties child) as [declared|].
    + destruct (forEachKey _ declared) as [[d w0] ps].
      intros H; inversion H. destruct (c_enum child); reflexivity.
    + intros H; inversion H. destruct (c_enum child); reflexivity.
  - apply (ObjectProperty_at_isArray (Some "object") k child (isRequiredIn required k)
             true true). now rewrite Hbuild.
Qed.

(** ** Primitive properties *)

(** C7, as the code has it: a declared property whose fragment has type
    "string", no enum, and none of $ref, items, allOf, anyOf, oneOf, not,
    is built as one property of kind "primitive"; its type is
    Primitive{format} when the fragment has a non-empty format and
    Primitive{"string"} otherwise, and it is in the parent's properties. *)
Theorem string_child_primitive
  typeName contract isRequired isArray nested before k child after :
  truthy (c_ref contract) = None ->
  c_items contract = None ->
  c_properties contract = Some (before ++ (k, Some child) :: after)%list ->
  c_type child = Some "string" ->
  c_enum child = None ->
  truthy (c_ref child) = None ->
  c_items child = None ->
  c_allOf child = None -> c_anyOf child = None ->
  c_oneOf child = None -> c_not child = None ->
  exists p this,
    declaredPropertyCallback contract nested k (Some child) = (Some child, [], [p]) /\
    p = TypeDefinitionPrimitiveProperty k child (isRequiredIn (c_required contract) k) false /\
    kind p = Some "primitive" /\
    type p = TypeDefinitionPropertyTypePrimitive (orElse (c_format child) "string") /\
    completionOf (TypeDefinitionObjectProperty typeName contract isRequired isArray nested)
    = Normal this /\
    properties this
    = Some (pushedFor contract nested before ++ p :: pushedFor contract nested after)%list.
Proof.
  intros Href Hitems Hprops Hty Henum Hcref Hcitems Hall Hany Hone Hnot.
  assert (Hcb : declaredPropertyCallback contract nested k (Some child)
                = (Some child, [],
                   [TypeDefinitionPrimitiveProperty k child
                      (isRequiredIn (c_required contract) k) false])).
  { unfold declaredPropertyCallback, forEachCallback, tryBlock.
    rewrite (normalizedType_plain _ Hcref Hcitems Hall Hany Hone Hnot), Hty.
    cbn [isPrimitiveTypeName String.eqb Ascii.eqb Bool.eqb orb].
    rewrite <- Hty, setType_c_type, Henum. reflexivity. }
  destruct (TypeDefinitionObjectProperty_declared typeName contract isRequired isArray nested
              _ Href Hitems Hprops) as [Hc _].
  do 2 eexists. split; [exact Hcb|]. split; [reflexivity|].
  split; [reflexivity|]. split.
  - simpl. rewrite Hty. reflexivity.
  - split; [exact Hc|]. simpl.
    now rewrite pushedFor_app, pushedFor_cons, Hcb.
Qed.

(** ** Indexers *)

(** C8: the object constructor (and so the root) builds a fragment with items
    and no $ref as a property of kind "indexer" with exactly one property,
    named "[]" and required whatever the fragment's required list; its type
    is Reference{name} when items has a $ref, Primitive{items.type} when
    items has only a type, and Primitive{"object"} when it has neither. *)
Theorem items_built_as_indexer typeName contract isRequired isArray nested items :
  truthy (c_ref contract) = None ->
  c_items contract = Some items ->
  exists this child,
    TypeDefinitionObjectProperty typeName contract isRequired isArray nested
    = (contract, [], Normal this) /\
    kind this = Some "indexer" /\
    properties this = Some [child] /\
    name child = "[]" /\
    required child = true /\
    kind child = Some "indexer" /\
    type child =
      match truthy (c_ref items) with
      | Some ref => TypeDefinitionPropertyTypeReference (getTypeNameFromRef ref)
      | None =>
          match truthy (c_type items) with
          | Some itemsType => TypeDefinitionPropertyTypePrimitive itemsType
          | None => TypeDefinitionPropertyTypePrimitive "object"
          end
      end.
Proof.
  intros Href Hitems.
  unfold TypeDefinitionObjectProperty.
  rewrite ObjectProperty_at_unfold; cbv zeta.
  rewrite Href, Hitems, setType_c_type.
  do 2 eexists. split; [reflexivity|].
  repeat (split; [reflexivity|]).
  simpl. destruct (truthy (c_ref items)), (truthy (c_type items)); reflexivity.
Qed.

(** ** Two trees *)

(** C4: the root built from
    {properties: {a: {type: "object", properties: {b: {type: "string"}}}}}
    has exactly one property, named "a.b", of kind "primitive"; no property
    of kind "object" named "a" is in its properties. *)
Theorem nested_object_flattened typeName :
  exists tree leaf,
    TypeDefinition typeName nestedObjectExample
    = (nestedObjectExample, [], Normal tree) /\
    properties tree = Some [leaf] /\
    name leaf = "a.b" /\
    kind leaf = Some "primitive" /\
    type leaf = TypeDefinitionPropertyTypePrimitive "string" /\
    properties leaf = None /\
    forall p, In p [leaf] -> ~ (kind p = Some "object" /\ name p = "a").
Proof.
  do 2 eexists. split; [reflexivity|].
  repeat (split; [reflexivity|]).
  intros p [<-|[]] [Hk _]. discriminate Hk.
Qed.

(** C1, at the input
    {properties: {a: {type: "array", items: {properties:
       {b: {type: "object", properties: {c: {type: "string"}}}}}}}}:
    the tree has the object "a[]" built from the items and the array
    property "a"; inside "a[]" the property "b", a plain nested object
    (kind "object", type Primitive{"object"}), has isArray = true. *)
Theorem nested_object_child_isArray typeName :
  exists after tree elements array b c,
    TypeDefinition typeName objectArrayExample = (after, [], Normal tree) /\
    properties tree = Some [elements; array] /\
    name elements = "a[]" /\ name array = "a" /\
    properties elements = Some [b] /\
    name b = "b" /\
    class b = ClassObjectProperty /\
    kind b = Some "object" /\
    type b = TypeDefinitionPropertyTypePrimitive "object" /\
    properties b = Some [c] /\
    isArray b = true.
Proof.
  do 6 eexists. split; [reflexivity|].
  repeat (split; [reflexivity|]). reflexivity.
Qed.

(** ** Flattening *)

(** [flattenNestedObjects] as a [flat_map] over the properties. *)
Lemma flattenNestedObjects_unfold nested prefix :
  flattenNestedObjects nested prefix =
  match properties nested with
  | None => []
  | Some children =>
      flat_map
        (fun property =>
           if instanceofObjectProperty (class property)
           then flattenNestedObjects property (prefix ++ "." ++ name property)
           else [setName (prefix ++ "." ++ name property) property])
        children
  end.
Proof.
  destruct nested as [cl n d t k e ef r a en [children|]]; [|reflexivity].
  simpl. induction children as [|x rest IH]; [reflexivity|].
  simpl. now rewrite IH.
Qed.

(** What is emitted is a leaf, renamed to its dotted path. *)
Lemma flattenNestedObjects_sound nested :
  forall prefix p,
    In p (flattenNestedObjects nested prefix) ->
    exists leaf dotted,
      FlattenedLeaf nested prefix leaf dotted /\ p = setName dotted leaf.
Proof.
  induction nested as [nested IH] using TypeDefinitionProperty_tree_ind.
  intros prefix p Hin.
  rewrite flattenNestedObjects_unfold in Hin.
  destruct (properties nested) as [children|] eqn:Hch; [|contradiction].
  apply in_flat_map in Hin. destruct Hin as (x & Hx & Hp).
  rewrite Forall_forall in IH.
  destruct (instanceofObjectProperty (class x)) eqn:Hobj.
  - destruct (IH x Hx _ _ Hp) as (leaf & dotted & Hleaf & ->).
    exists leaf, dotted. split; [|reflexivity].
    eapply FlattenedLeaf_descend; eauto.
  - destruct Hp as [<-|[]].
    exists x, (prefix ++ "." ++ name x). split; [|reflexivity].
    eapply FlattenedLeaf_child; eauto.
Qed.

(** Every leaf is emitted. *)
Lemma flattenNestedObjects_complete nested prefix leaf dotted :
  FlattenedLeaf nested prefix leaf dotted ->
  In (setName dotted leaf) (flattenNestedObjects nested prefix).
Proof.
  induction 1 as [nested prefix children leaf Hch Hin Hobj
                 |nested prefix children object leaf dotted Hch Hin Hobj _ IH];
    rewrite flattenNestedObjects_unfold, Hch; apply in_flat_map.
  - exists leaf. split; [exact Hin|]. rewrite Hobj. now left.
  - exists object. split; [exact Hin|]. now rewrite Hobj.
Qed.

(** C9: every property emitted by the flattening is a leaf of the nested
    object (a property reached through object properties that is not an
    object property itself) with its name replaced by the dotted path; all
    its other fields (required, enum, type, kind, description, example,
    exampleFormat, isArray) are those of the leaf. *)
Theorem flattening_only_renames nested prefix p :
  In p (flattenNestedObjects nested prefix) ->
  exists leaf dotted,
    FlattenedLeaf nested prefix leaf dotted /\
    p = setName dotted leaf /\
    name p = dotted /\
    required p = required leaf /\
    enum p = enum leaf /\
    type p = type leaf /\
    kind p = kind leaf /\
    description p = description leaf /\
    example p = example leaf /\
    exampleFormat p = exampleFormat leaf /\
    isArray p = isArray leaf /\
    class p = class leaf /\
    properties p = properties leaf.
Proof.
  intros Hin.
  destruct (flattenNestedObjects_sound nested prefix p Hin) as (leaf & dotted & Hleaf & ->).
  exists leaf, dotted. repeat split; assumption.
Qed.

(** ** Building twice *)

Lemma setType_setType ty ty' c : setType ty (setType ty' c) = setType ty c.
Proof. destruct c; reflexivity. Qed.

Lemma ObjectProperty_at_setType ty ty' name c isRequired isArray nested :
  ObjectProperty_at ty name (setType ty' c) isRequired isArray nested
  = ObjectProperty_at ty name c isRequired isArray nested.
Proof. destruct c; reflexivity. Qed.

(** The constructor assigns nothing on its own fragment but the [type]
    given by the caller, and the fragments of its declared properties. *)
Lemma fragmentAfter_shape ty name c isRequired isArray nested :
  exists ps,
    fragmentAfter (ObjectProperty_at ty name c isRequired isArray nested)
    = setProperties ps (setType ty c).
Proof.
  rewrite ObjectProperty_at_unfold; cbv zeta.
  assert (Hsame : setProperties (c_properties c) (setType ty c) = setType ty c)
    by (destruct c; reflexivity).
  destruct (truthy (c_ref c)); [exists (c_properties c); now rewrite Hsame|].
  destruct (c_items c); [exists (c_properties c); now rewrite Hsame|].
  clear Hsame.
  destruct (c_properties c) as [declared|] eqn:E.
  - destruct (forEachKey _ declared) as [[d w] ps]. now exists (Some d).
  - exists None. destruct c; simpl in E; subst; reflexivity.
Qed.

Lemma normalizedType_fixed p ps :
  normalizedType (setProperties ps (setType (normalizedType p) p)) = normalizedType p.
Proof.
  destruct p as [ty f ti d ex en pr rq it rf al an on nt].
  unfold normalizedType; simpl.
  destruct (truthy rf), it, al, an, on, nt; reflexivity.
Qed.

Lemma normalizedType_fixed_items p ps items items' :
  c_items p = Some items ->
  normalizedType (setItems (Some items') (setProperties ps (setType (normalizedType p) p)))
  = normalizedType p.
Proof.
  destruct p as [ty f ti d ex en pr rq it rf al an on nt].
  unfold normalizedType; simpl. intros ->.
  destruct (truthy rf), al, an, on, nt; reflexivity.
Qed.

Lemma setProperties_same c : setProperties (c_properties c) c = c.
Proof. destruct c; reflexivity. Qed.

(** The [try] block on the fragment as the normalisation leaves it. *)
Lemma tryBlock_normalized required nested k pso :
  tryBlock ObjectProperty_at required nested k (setType (normalizedType pso) pso)
  = tryBlock ObjectProperty_at required nested k pso.
Proof.
  unfold tryBlock.
  pose proof (normalizedType_fixed pso (c_properties (setType (normalizedType pso) pso))) as E.
  rewrite setProperties_same in E. rewrite E.
  rewrite setType_setType, ObjectProperty_at_setType.
  replace (c_items (setType (normalizedType pso) pso)) with (c_items pso)
    by (destruct pso; reflexivity).
  reflexivity.
Qed.
Lemma tryBlock_again required nested k pso schema' warnings result :
  builtAgainTheSame pso ->
  match c_items pso with Some items => builtAgainTheSame items | None => True end ->
  tryBlock ObjectProperty_at required nested k pso = (schema', warnings, result) ->
  tryBlock ObjectProperty_at required nested k schema' = (schema', warnings, result).
Proof.
  intros Hpso Hitems H.
  assert (Hsimple : schema' = setType (normalizedType pso) pso ->
          tryBlock ObjectProperty_at required nested k schema' = (schema', warnings, result)).
  { intros ->. now rewrite tryBlock_normalized. }
  unfold tryBlock in H.
  destruct (normalizedType pso) as [t|] eqn:Hty;
    [|apply Hsimple; now inversion H].
  destruct (isPrimitiveTypeName t) eqn:Hprim.
  { apply Hsimple. destruct (present _); now inversion H. }
  destruct (String.eqb t "object") eqn:Hobj.
  { destruct (ObjectProperty_at (Some t) k pso (isRequiredIn required k) true true)
      as [[after w] r] eqn:Hbuild.
    assert (Hafter : after = fragmentAfter
              (ObjectProperty_at (Some t) k pso (isRequiredIn required k) true true))
      by now rewrite Hbuild.
    assert (Hs : schema' = after) by (destruct r; [destruct (negb nested)|]; now inversion H).
    subst schema'.
    destruct (fragmentAfter_shape (Some t) k pso (isRequiredIn required k) true true)
      as [ps Hshape].
    rewrite <- Hafter in Hshape.
    assert (Hnt : normalizedType after = Some t)
      by (rewrite Hshape, <- Hty; apply normalizedType_fixed).
    assert (Hre : ObjectProperty_at (Some t) k after (isRequiredIn required k) true true
                  = (after, w, r)).
    { rewrite Hafter at 1. rewrite Hpso. exact Hbuild. }
    unfold tryBlock. rewrite Hnt, Hprim, Hobj, Hre. exact H. }
  destruct (String.eqb t "array") eqn:Harr.
  2:{ apply Hsimple.
      destruct (String.eqb t "combination");
        [destruct (TypeDefinitionCombinationProperty _ _ _)|]; now inversion H. }
  destruct (c_items pso) as [items|] eqn:Hit; [|apply Hsimple; now inversion H].
  destruct (truthy (c_ref items)) as [ref|] eqn:Hiref; [apply Hsimple; now inversion H|].
  destruct (truthy (c_type items)) as [ity|] eqn:Hity; [apply Hsimple; now inversion H|].
  destruct (ObjectProperty_at (c_type items) (k ++ "[]") items (isRequiredIn required k)
              true true) as [[after w] r] eqn:Hbuild.
  assert (Hafter : after = fragmentAfter
            (ObjectProperty_at (c_type items) (k ++ "[]") items (isRequiredIn required k)
               true true))
    by now rewrite Hbuild.
  destruct (fragmentAfter_shape (c_type items) (k ++ "[]") items (isRequiredIn required k)
              true true) as [ps Hshape].
  rewrite <- Hafter, setType_c_type in Hshape.
  assert (Hs : schema' = setItems (Some after) (setType (Some t) pso))
    by (destruct r; now inversion H).
  assert (Hnt : normalizedType schema' = Some t).
  { rewrite Hs, <- Hty.
    rewrite <- (setProperties_same (setType (normalizedType pso) pso)).
    apply normalizedType_fixed_items with items.
    destruct pso; exact Hit. }
  assert (Hre : ObjectProperty_at (c_type after) (k ++ "[]") after (isRequiredIn required k)
                  true true = (after, w, r)).
  { replace (c_type after) with (c_type items) by (rewrite Hshape; now destruct items).
    rewrite Hafter at 1. rewrite Hitems. exact Hbuild. }
  unfold tryBlock. rewrite Hnt, Hprim, Hobj, Harr.
  replace (c_items schema') with (Some after) by (rewrite Hs; now destruct pso).
  replace (truthy (c_ref after)) with (@None string)
    by (rewrite <- Hiref, Hshape; now destruct items).
  replace (truthy (c_type after)) with (@None string)
    by (rewrite <- Hity, Hshape; now destruct items).
  rewrite Hre.
  replace (setItems (Some after) (setType (Some t) schema'))
    with (setItems (Some after) (setType (Some t) pso))
    by (rewrite Hs; now destruct pso).
  replace (TypeDefinitionPrimitiveProperty k (setType (Some t) schema')
             (isRequiredIn required k) true)
    with (TypeDefinitionPrimitiveProperty k (setType (Some t) pso)
            (isRequiredIn required k) true)
    by (rewrite Hs; now destruct pso).
  exact H.
Qed.

Lemma forEachCallback_again required nested k entry entry' warnings pushed :
  match entry with
  | Some pso =>
      builtAgainTheSame pso /\
      match c_items pso with Some items => builtAgainTheSame items | None => True end
  | None => True
  end ->
  forEachCallback ObjectProperty_at required nested k entry = (entry', warnings, pushed) ->
  forEachCallback ObjectProperty_at required nested k entry' = (entry', warnings, pushed).
Proof.
  destruct entry as [pso|]; unfold forEachCallback;
    [|intros _ H; now inversion H].
  intros [Hpso Hitems] H.
  destruct (tryBlock ObjectProperty_at required nested k pso) as [[s w] r] eqn:Htry.
  pose proof (tryBlock_again _ _ _ _ _ _ _ Hpso Hitems Htry) as Hagain.
  assert (entry' = Some s) as -> by (destruct r; now inversion H).
  now rewrite Hagain.
Qed.

Lemma forEachKey_again callback declared :
  Forall (fun kv => forall entry' warnings pushed,
            callback (fst kv) (snd kv) = (entry', warnings, pushed) ->
            callback (fst kv) entry' = (entry', warnings, pushed)) declared ->
  forall declared' warnings props,
    forEachKey callback declared = (declared', warnings, props) ->
    forEachKey callback declared' = (declared', warnings, props).
Proof.
  induction 1 as [|[k entry] rest Hhead _ IH]; simpl; intros declared' warnings props H.
  - now inversion H.
  - destruct (callback k entry) as [[e w] ps] eqn:Hcb.
    destruct (forEachKey callback rest) as [[d w'] ps'] eqn:Hrest.
    inversion H; subst. simpl.
    pose proof (Hhead _ _ _ Hcb) as Hh. simpl in Hh.
    rewrite Hh, (IH _ _ _ eq_refl). reflexivity.
Qed.

(** Every fragment is built again the same. *)
Lemma builtAgainTheSame_all c :
  builtAgainTheSame c /\
  match c_items c with Some items => builtAgainTheSame items | None => True end.
Proof.
  induction c as [c IHprops IHitems] using SchemaObjectContract_tree_ind.
  split; [|destruct (c_items c); [apply IHitems|exact I]].
  intros ty name isRequired isArray nested.
  assert (Hsimple :
    fragmentAfter (ObjectProperty_at ty name c isRequired isArray nested) = setType ty c ->
    ObjectProperty_at ty name
      (fragmentAfter (ObjectProperty_at ty name c isRequired isArray nested))
      isRequired isArray nested
    = ObjectProperty_at ty name c isRequired isArray nested).
  { intros ->. apply ObjectProperty_at_setType. }
  destruct (truthy (c_ref c)) as [ref|] eqn:Href.
  { apply Hsimple. rewrite ObjectProperty_at_unfold; cbv zeta. now rewrite Href. }
  destruct (c_items c) as [items|] eqn:Hit.
  { apply Hsimple. rewrite ObjectProperty_at_unfold; cbv zeta. now rewrite Href, Hit. }
  destruct (c_properties c) as [declared|] eqn:Hdecl.
  2:{ apply Hsimple. rewrite ObjectProperty_at_unfold; cbv zeta.
      now rewrite Href, Hit, Hdecl. }
  clear Hsimple.
  rewrite (ObjectProperty_at_unfold ty name c); cbv zeta.
  rewrite Href, Hit, Hdecl.
  destruct (forEachKey (forEachCallback ObjectProperty_at (c_required c) nested) declared)
    as [[d w] ps] eqn:Hloop.
  unfold fragmentAfter; simpl fst.
  assert (Hagain : forEachKey (forEachCallback ObjectProperty_at (c_required c) nested) d
                   = (d, w, ps)).
  { apply forEachKey_again with declared; [|exact Hloop].
    eapply Forall_impl; [|exact IHprops].
    intros [k entry] Hentry e' w' ps'. simpl in *.
    apply forEachCallback_again. destruct entry; [exact Hentry|exact I]. }
  rewrite ObjectProperty_at_unfold; cbv zeta.
  destruct c as [cty f ti de ex en pr rq it rf al an on nt]; simpl in *.
  rewrite Href. subst it. rewrite Hagain. reflexivity.
Qed.

(** C6: building the root a second time, on the fragment as the first build
    has left it (with [type] assigned on the declared properties), returns
    the same tree as the first build; it also logs the same warnings and
    leaves the fragment as it is. *)
Theorem build_twice_same_tree typeName contract :
  exists tree,
    completionOf (TypeDefinition typeName contract) = Normal tree /\
    completionOf (TypeDefinition typeName (fragmentAfter (TypeDefinition typeName contract)))
    = Normal tree /\
    TypeDefinition typeName (fragmentAfter (TypeDefinition typeName contract))
    = TypeDefinition typeName contract.
Proof.
  assert (H : TypeDefinition typeName (fragmentAfter (TypeDefinition typeName contract))
              = TypeDefinition typeName contract).
  { destruct (TypeDefinition_completion typeName contract) as (_ & _ & Hf).
    rewrite Hf. unfold TypeDefinition.
    assert (E : TypeDefinitionObjectProperty typeName
                  (fragmentAfter
                     (TypeDefinitionObjectProperty typeName contract true false false))
                  true false false
                = TypeDefinitionObjectProperty typeName contract true false false).
    { unfold TypeDefinitionObjectProperty.
      destruct (fragmentAfter_shape (c_type contract) typeName contract true false false)
        as [ps Hshape].
      rewrite setType_c_type in Hshape.
      replace (c_type (fragmentAfter
                 (ObjectProperty_at (c_type contract) typeName contract true false false)))
        with (c_type contract) by (rewrite Hshape; now destruct contract).
      destruct (builtAgainTheSame_all contract) as [Hsame _].
      apply Hsame. }
    now rewrite E. }
  destruct (TypeDefinition_completes typeName contract) as [tree Htree].
  exists tree. split; [exact Htree|]. split; [|exact H].
  rewrite H. exact Htree.
Qed.

(** * Further properties *)

(** ** Reference names *)

Lemma split_slash_nonempty s : forall cur, split_slash cur s <> [].
Proof.
  induction s as [|ch rest IH]; intros cur; simpl; [discriminate|].
  destruct (Ascii.eqb ch "/"); [discriminate|apply IH].
Qed.

Lemma last_cons_nonempty {A : Type} (x : A) l d : l <> [] -> last (x :: l) d = last l d.
Proof. destruct l; [congruence|reflexivity]. Qed.

Lemma split_slash_without_slash s :
  hasSlash s = false -> forall cur, split_slash cur s = [cur ++ s].
Proof.
  induction s as [|ch rest IH]; simpl; intros H cur.
  - assert (E : cur ++ "" = cur) by (induction cur; simpl; congruence).
    now rewrite E.
  - apply orb_false_iff in H. destruct H as [Hch Hrest].
    rewrite Hch, (IH Hrest).
    assert (E : forall a, (a ++ String ch "") ++ rest = a ++ String ch rest)
      by (induction a; simpl; congruence).
    now rewrite E.
Qed.

Lemma split_slash_last_after_slash before after d :
  forall cur,
    last (split_slash cur (before ++ String "/" after)) d
    = last (split_slash EmptyString after) d.
Proof.
  induction before as [|ch rest IH]; intros cur; simpl.
  - apply last_cons_nonempty, split_slash_nonempty.
  - destruct (Ascii.eqb ch "/").
    + rewrite last_cons_nonempty by apply split_slash_nonempty. apply IH.
    + apply IH.
Qed.

(** X1: the name taken from a reference is what follows its last "/". *)
Theorem getTypeNameFromRef_last_segment before typeName :
  hasSlash typeName = false ->
  getTypeNameFromRef (before ++ "/" ++ typeName) = typeName.
Proof.
  intros H. unfold getTypeNameFromRef.
  assert (E : last (split_slash EmptyString (before ++ "/" ++ typeName)) EmptyString
              = typeName).
  { change (before ++ "/" ++ typeName) with (before ++ String "/" typeName).
    rewrite split_slash_last_after_slash, (split_slash_without_slash _ H). reflexivity. }
  destruct (before ++ "/" ++ typeName) eqn:Hs; [|exact E].
  destruct before; discriminate Hs.
Qed.

(** X2: a reference without "/" is its own name. *)
Theorem getTypeNameFromRef_without_slash ref :
  hasSlash ref = false -> getTypeNameFromRef ref = ref.
Proof.
  intros H. unfold getTypeNameFromRef.
  destruct ref as [|ch rest]; [reflexivity|].
  now rewrite (split_slash_without_slash _ H).
Qed.

Lemma hasSlash_snoc cur ch :
  hasSlash (cur ++ String ch EmptyString) = hasSlash cur || Ascii.eqb ch "/".
Proof.
  induction cur as [|c rest IH]; simpl; [now rewrite orb_false_r|].
  now rewrite IH, orb_assoc.
Qed.

Lemma split_slash_segments s :
  forall cur, hasSlash cur = false ->
    forall x, In x (split_slash cur s) -> hasSlash x = false.
Proof.
  induction s as [|ch rest IH]; simpl; intros cur Hcur x Hin.
  - destruct Hin as [<-|[]]. exact Hcur.
  - destruct (Ascii.eqb ch "/") eqn:Hch.
    + destruct Hin as [<-|Hin]; [exact Hcur|]. now apply (IH EmptyString).
    + apply (IH (cur ++ String ch EmptyString)); [|exact Hin].
      now rewrite hasSlash_snoc, Hcur, Hch.
Qed.

(** X3: the name taken from a reference never contains "/". *)
Theorem getTypeNameFromRef_has_no_slash ref :
  hasSlash (getTypeNameFromRef ref) = false.
Proof.
  unfold getTypeNameFromRef. destruct ref as [|ch rest]; [reflexivity|].
  apply (split_slash_segments (String ch rest) EmptyString eq_refl).
  destruct (exists_last (split_slash_nonempty (String ch rest) EmptyString))
    as (l & x & E).
  rewrite E, last_last. apply in_or_app; right; now left.
Qed.

(** ** The cases of the properties loop *)

Lemma normalizedType_items child items :
  c_items child = Some items ->
  noCombinationKey child ->
  normalizedType child = Some "array".
Proof.
  intros Hitems (Hall & Hany & Hone & Hnot).
  unfold normalizedType. now rewrite Hitems, Hall, Hany, Hone, Hnot.
Qed.

Lemma normalizedType_ref child ref :
  truthy (c_ref child) = Some ref ->
  c_items child = None ->
  noCombinationKey child ->
  normalizedType child = Some "object".
Proof.
  intros Href Hitems (Hall & Hany & Hone & Hnot).
  unfold normalizedType. now rewrite Href, Hitems, Hall, Hany, Hone, Hnot.
Qed.

(** What the object constructor copies from its arguments. *)
Lemma ObjectProperty_at_head ty name0 contract isRequired isArray0 nested this :
  completionOf (ObjectProperty_at ty name0 contract isRequired isArray0 nested)
  = Normal this ->
  class this = ClassObjectProperty /\
  name this = orElse (c_title contract) name0 /\
  description this = c_description contract /\
  required this = isRequired /\
  isArray this = isArray0 /\
  exampleFormat this = "json".
Proof.
  rewrite ObjectProperty_at_unfold; cbv zeta.
  destruct contract as [cty f ti d ex en pr rq it rf al an on nt].
  cbn [c_ref c_items c_properties c_enum c_required c_title c_description setType].
  destruct (truthy rf); [intros H; inversion H; repeat split|].
  destruct it; [intros H; inversion H; repeat split|].
  destruct pr as [declared|].
  - destruct (forEachKey _ declared) as [[d' w] ps].
    intros H; inversion H. destruct en; repeat split.
  - intros H; inversion H. destruct en; repeat split.
Qed.

(** X4: a declared property with items whose element has a $ref or a type
    is built as one array property, whatever its own type and $ref: a
    primitive property with isArray = true and the type
    ArrayOfReference{name} when items has a $ref, ArrayOfPrimitive{items.type}
    otherwise; its required flag is the membership of its key in the
    parent's required list. *)
Theorem array_child_of_named_elements self requiredNames nested k child items :
  c_items child = Some items ->
  noCombinationKey child ->
  truthy (c_ref items) <> None \/ truthy (c_type items) <> None ->
  exists p,
    forEachCallback self requiredNames nested k (Some child)
    = (Some (setType (Some "array") child), [], [p]) /\
    class p = ClassPrimitiveProperty /\
    kind p = Some "primitive" /\
    isArray p = true /\
    required p = isRequiredIn requiredNames k /\
    properties p = None /\
    type p =
      match truthy (c_ref items) with
      | Some ref => TypeDefinitionPropertyTypeArrayOfReference (getTypeNameFromRef ref)
      | None => TypeDefinitionPropertyTypeArrayOfPrimitive (orElse (c_type items) "object")
      end.
Proof.
  intros Hitems Hcomb Hnamed.
  unfold forEachCallback, tryBlock.
  rewrite (normalizedType_items _ _ Hitems Hcomb).
  cbn [isPrimitiveTypeName String.eqb Ascii.eqb Bool.eqb orb].
  rewrite Hitems.
  destruct (truthy (c_ref items)) as [ref|] eqn:Href.
  - eexists. split; [reflexivity|]. repeat split.
  - destruct (truthy (c_type items)) as [ity|] eqn:Hity.
    + eexists. split; [reflexivity|]. repeat split.
      unfold orElse. now rewrite Hity.
    + exfalso. destruct Hnamed as [H|H]; now apply H.
Qed.

(** X5: a declared property with items whose element has neither $ref nor
    type pushes two properties, in this order: the object built from items,
    named by the title of items or else the key followed by "[]", with
    isArray = true; then the array property, whose type is
    Primitive{format} or else Primitive{"array"}, with isArray = true. *)
Theorem array_child_of_objects requiredNames nested k child items :
  c_items child = Some items ->
  noCombinationKey child ->
  truthy (c_ref items) = None ->
  truthy (c_type items) = None ->
  exists elements array,
    snd (forEachCallback ObjectProperty_at requiredNames nested k (Some child))
    = [elements; array] /\
    completionOf (TypeDefinitionObjectProperty (k ++ "[]") items
                    (isRequiredIn requiredNames k) true true) = Normal elements /\
    instanceofObjectProperty (class elements) = true /\
    name elements = orElse (c_title items) (k ++ "[]") /\
    isArray elements = true /\
    array = TypeDefinitionPrimitiveProperty k (setType (Some "array") child)
              (isRequiredIn requiredNames k) true /\
    type array = TypeDefinitionPropertyTypePrimitive (orElse (c_format child) "array") /\
    isArray array = true.
Proof.
  intros Hitems Hcomb Href Hity.
  unfold forEachCallback, tryBlock.
  rewrite (normalizedType_items _ _ Hitems Hcomb).
  cbn [isPrimitiveTypeName String.eqb Ascii.eqb Bool.eqb orb].
  rewrite Hitems, Href, Hity.
  unfold TypeDefinitionObjectProperty.
  destruct (ObjectProperty_at_completes (c_type items) (k ++ "[]") items
              (isRequiredIn requiredNames k) true true) as (c & w & elements & Hbuild).
  rewrite Hbuild.
  destruct (ObjectProperty_at_head (c_type items) (k ++ "[]") items
              (isRequiredIn requiredNames k) true true elements) as (Hc & Hn & _ & _ & Ha & _);
    [now rewrite Hbuild|].
  do 2 eexists. split; [reflexivity|]. split; [reflexivity|].
  split; [now rewrite Hc|]. split; [exact Hn|]. split; [exact Ha|].
  split; [reflexivity|]. split; [|reflexivity].
  simpl. destruct child; reflexivity.
Qed.

(** X6: a declared property with a $ref (and no items, no combination key)
    is left out of a parent that is not nested, without a warning: the
    object built for it has no properties to flatten.  In a nested parent it
    is pushed as one object property of type Reference{name}, without
    properties. *)
Theorem reference_child requiredNames k child ref :
  truthy (c_ref child) = Some ref ->
  c_items child = None ->
  noCombinationKey child ->
  forEachCallback ObjectProperty_at requiredNames false k (Some child)
  = (Some (setType (Some "object") child), [], []) /\
  exists p,
    forEachCallback ObjectProperty_at requiredNames true k (Some child)
    = (Some (setType (Some "object") child), [], [p]) /\
    kind p = Some "object" /\
    type p = TypeDefinitionPropertyTypeReference (getTypeNameFromRef ref) /\
    properties p = None.
Proof.
  intros Href Hitems Hcomb.
  unfold forEachCallback, tryBlock.
  rewrite (normalizedType_ref _ _ Href Hitems Hcomb).
  cbn [isPrimitiveTypeName String.eqb Ascii.eqb Bool.eqb orb].
  rewrite ObjectProperty_at_unfold; cbv zeta. rewrite Href.
  split; [reflexivity|].
  eexists. split; [reflexivity|]. repeat split.
Qed.

(** X7: a declared property whose type, after normalisation, is none of
    integer, number, string, boolean, object, array, combination (or is
    missing) is left out, and exactly one warning naming that type is
    logged. *)
Theorem unknown_type_child self requiredNames nested k child :
  truthy (c_ref child) = None ->
  c_items child = None ->
  noCombinationKey child ->
  isKnownTypeName (c_type child) = false ->
  forEachCallback self requiredNames nested k (Some child)
  = (Some child, [UnknownTypeOfSchemaDefinition (c_type child)], []).
Proof.
  intros Href Hitems (Hall & Hany & Hone & Hnot) Hunknown.
  unfold forEachCallback, tryBlock.
  rewrite (normalizedType_plain _ Href Hitems Hall Hany Hone Hnot), setType_c_type.
  destruct (c_type child) as [t|]; [|reflexivity].
  simpl in Hunknown.
  apply orb_false_iff in Hunknown. destruct Hunknown as [Hunknown Hcomb].
  apply orb_false_iff in Hunknown. destruct Hunknown as [Hunknown Harr].
  apply orb_false_iff in Hunknown. destruct Hunknown as [Hprim Hobj].
  now rewrite Hprim, Hobj, Harr, Hcomb.
Qed.

(** X8: a declared property of type integer, number, string or boolean that
    has an enum is built as one property of kind "enum" whose type is
    Primitive{format} or else Primitive{type}; the enum values themselves are
    not stored on it. *)
Theorem enumeration_child self requiredNames nested k child t values :
  c_type child = Some t ->
  isPrimitiveTypeName t = true ->
  c_enum child = Some values ->
  truthy (c_ref child) = None ->
  c_items child = None ->
  noCombinationKey child ->
  exists p,
    forEachCallback self requiredNames nested k (Some child) = (Some child, [], [p]) /\
    class p = ClassEnumerationProperty /\
    kind p = Some "enum" /\
    enum p = None /\
    type p = TypeDefinitionPropertyTypePrimitive (orElse (c_format child) t) /\
    required p = isRequiredIn requiredNames k /\
    isArray p = false.
Proof.
  intros Hty Hprim Henum Href Hitems (Hall & Hany & Hone & Hnot).
  unfold forEachCallback, tryBlock.
  rewrite (normalizedType_plain _ Href Hitems Hall Hany Hone Hnot), Hty, Hprim.
  rewrite <- Hty, setType_c_type, Henum. simpl.
  eexists. split; [reflexivity|]. repeat split.
  simpl. rewrite Hty.
  destruct t; [discriminate Hprim|reflexivity].
Qed.

(** ** The combination constructor *)

(** X9: the combination constructor throws in exactly two cases: [not] holds
    a single fragment ([map] is not a function), or none of the four keys is
    on the fragment ([map] of undefined). *)
Theorem combination_throws_iff name0 contract isRequired error :
  TypeDefinitionCombinationProperty name0 contract isRequired = Thrown error <->
  (exists single,
     c_not contract = Some (inl single) /\ error = TypeError_map_is_not_a_function) \/
  (c_allOf contract = None /\ c_anyOf contract = None /\
   c_oneOf contract = None /\ c_not contract = None /\
   error = TypeError_undefined_map).
Proof.
  unfold TypeDefinitionCombinationProperty, combinationSelection.
  destruct (c_not contract) as [[single|array]|].
  - split.
    + intros H; inversion H. left. now exists single.
    + intros [(s & _ & ->)|(_ & _ & _ & H & _)]; [reflexivity|discriminate H].
  - split; [discriminate|].
    intros [(s & H & _)|(_ & _ & _ & H & _)]; discriminate H.
  - destruct (c_oneOf contract), (c_anyOf contract), (c_allOf contract);
      (split;
       [intros H; try discriminate H; inversion H; right; now repeat split
       |intros [(s & H & _)|(H1 & H2 & H3 & _ & H5)];
        try discriminate; subst; reflexivity]).
Qed.

(** ** The root and the object constructor *)

(** X10: the root constructor returns for every fragment; the root is named
    by the caller whatever the title of the fragment, is required and is not
    an array. *)
Theorem root_named_by_caller typeName contract :
  exists tree,
    completionOf (TypeDefinition typeName contract) = Normal tree /\
    name tree = typeName /\
    class tree = ClassTypeDefinition /\
    required tree = true /\
    isArray tree = false /\
    description tree = c_description contract.
Proof.
  destruct (TypeDefinition_completion typeName contract) as (Hc & _ & _).
  destruct (TypeDefinitionObjectProperty_completes typeName contract true false false)
    as [this Hthis].
  destruct (ObjectProperty_at_head (c_type contract) typeName contract true false false this
              Hthis) as (_ & _ & Hd & Hr & Ha & _).
  rewrite Hthis in Hc.
  eexists. split; [exact Hc|]. simpl. repeat split; assumption.
Qed.

(** X11: on a fragment with a $ref the object constructor stops at the
    reference: the property has kind "object", the type Reference{name}, no
    properties and no enum, nothing is logged and the fragment is left as it
    is, whatever items, enum or properties the fragment has. *)
Theorem reference_object typeName contract isRequired isArray0 nested ref :
  truthy (c_ref contract) = Some ref ->
  exists this,
    TypeDefinitionObjectProperty typeName contract isRequired isArray0 nested
    = (contract, [], Normal this) /\
    kind this = Some "object" /\
    type this = TypeDefinitionPropertyTypeReference (getTypeNameFromRef ref) /\
    properties this = None /\
    enum this = None.
Proof.
  intros Href. unfold TypeDefinitionObjectProperty.
  rewrite ObjectProperty_at_unfold; cbv zeta. rewrite Href, setType_c_type.
  eexists. split; [reflexivity|]. repeat split.
Qed.

(** X12: on a fragment with an enum, and neither $ref nor items, the object
    constructor stores the enum values and sets the kind to "enum"; the
    declared properties are still built. *)
Theorem enumeration_object typeName contract isRequired isArray0 nested values declared :
  truthy (c_ref contract) = None ->
  c_items contract = None ->
  c_enum contract = Some values ->
  c_properties contract = Some declared ->
  exists this,
    completionOf (TypeDefinitionObjectProperty typeName contract isRequired isArray0 nested)
    = Normal this /\
    kind this = Some "enum" /\
    enum this = Some values /\
    properties this = Some (pushedFor contract nested declared).
Proof.
  intros Href Hitems Henum Hprops.
  destruct (TypeDefinitionObjectProperty_declared typeName contract isRequired isArray0
              nested declared Href Hitems Hprops) as [H _].
  eexists. split; [exact H|].
  unfold objectBeforeProperties. rewrite Henum. repeat split.
Qed.

(** ** Invariants of the nodes of a built tree *)

Lemma NodeOf_leaf tree p : properties tree = None -> NodeOf tree p -> p = tree.
Proof.
  intros Hnone H. destruct H as [|tree children child p Hch]; [reflexivity|].
  congruence.
Qed.

Lemma AllNodes_leaf (Q : TypeDefinitionProperty -> Prop) tree :
  properties tree = None -> Q tree -> AllNodes Q tree.
Proof. intros Hnone HQ p Hp. now rewrite (NodeOf_leaf _ _ Hnone Hp). Qed.

Lemma AllNodes_node (Q : TypeDefinitionProperty -> Prop) tree children :
  properties tree = Some children ->
  Q tree -> Forall (AllNodes Q) children -> AllNodes Q tree.
Proof.
  intros Hch HQ Hall p Hp.
  destruct Hp as [|tree children' child p Hch' Hin Hp]; [exact HQ|].
  rewrite Hch in Hch'. inversion Hch'; subst children'.
  rewrite Forall_forall in Hall. now apply (Hall child Hin).
Qed.

Lemma AllNodes_self (Q : TypeDefinitionProperty -> Prop) tree : AllNodes Q tree -> Q tree.
Proof. intros H. apply H, NodeOf_self. Qed.

Lemma AllNodes_child (Q : TypeDefinitionProperty -> Prop) tree children child :
  AllNodes Q tree -> properties tree = Some children -> In child children ->
  AllNodes Q child.
Proof. intros H Hch Hin p Hp. apply H. now apply NodeOf_below with children child. Qed.

Lemma FlattenedLeaf_NodeOf nested prefix leaf dotted :
  FlattenedLeaf nested prefix leaf dotted ->
  NodeOf nested leaf /\ instanceofObjectProperty (class leaf) = false.
Proof.
  induction 1 as [nested prefix children leaf Hch Hin Hobj
                 |nested prefix children object leaf dotted Hch Hin Hobj _ [IH1 IH2]].
  - split; [|exact Hobj]. apply NodeOf_below with children leaf; auto using NodeOf_self.
  - split; [|exact IH2]. now apply NodeOf_below with children object.
Qed.

(** A node that is not an object property keeps the invariant when it is
    renamed, and has no properties. *)
Lemma nodeInvariant_renamed_leaf leaf dotted :
  instanceofObjectProperty (class leaf) = false ->
  nodeInvariant leaf ->
  AllNodes nodeInvariant (setName dotted leaf).
Proof.
  intros Hobj [Hfmt Hinv].
  destruct leaf as [cl n d t k e ef r a en ps]; simpl in *.
  destruct cl; try discriminate Hobj;
    (apply AllNodes_leaf; [simpl; tauto|split; [exact Hfmt|exact Hinv]]).
Qed.

Lemma flattenNestedObjects_wellFormed nested prefix :
  AllNodes nodeInvariant nested ->
  Forall (AllNodes nodeInvariant) (flattenNestedObjects nested prefix).
Proof.
  intros Hall. apply Forall_forall. intros p Hin.
  destruct (flattenNestedObjects_sound nested prefix p Hin) as (leaf & dotted & Hleaf & ->).
  destruct (FlattenedLeaf_NodeOf _ _ _ _ Hleaf) as [Hnode Hobj].
  apply nodeInvariant_renamed_leaf; [exact Hobj|now apply Hall].
Qed.

Lemma primitive_wellFormed k c isRequired isArray0 :
  AllNodes nodeInvariant (TypeDefinitionPrimitiveProperty k c isRequired isArray0).
Proof.
  apply AllNodes_leaf; [reflexivity|]. split; [reflexivity|]. simpl.
  repeat split. discriminate.
Qed.

Lemma array_wellFormed k c isRequired t :
  isCombinationType t = false ->
  AllNodes nodeInvariant (setPType t (TypeDefinitionPrimitiveProperty k c isRequired true)).
Proof.
  intros Ht. apply AllNodes_leaf; [reflexivity|]. split; [reflexivity|]. simpl.
  repeat split. exact Ht.
Qed.

Lemma enumeration_wellFormed k c isRequired :
  AllNodes nodeInvariant (TypeDefinitionEnumerationProperty k c isRequired false).
Proof.
  apply AllNodes_leaf; [reflexivity|]. split; [reflexivity|]. simpl. repeat split.
Qed.

Lemma combinationMember_plain item : isPlainMember (combinationMember item) = true.
Proof. unfold combinationMember. destruct (truthy (c_ref item)); reflexivity. Qed.

Lemma combination_wellFormed k c isRequired p :
  TypeDefinitionCombinationProperty k c isRequired = Normal p ->
  AllNodes nodeInvariant p.
Proof.
  unfold TypeDefinitionCombinationProperty.
  destruct (combinationSelection c) as [[ct|] [[single|array]|]]; try discriminate.
  intros H; inversion H; subst p.
  apply AllNodes_leaf; [reflexivity|]. split; [reflexivity|]. simpl.
  repeat split. do 2 eexists. split; [reflexivity|].
  apply forallb_forall. intros m Hm. apply in_map_iff in Hm.
  destruct Hm as (item & <- & _). apply combinationMember_plain.
Qed.

Lemma indexer_wellFormed t :
  isPlainMember t = true ->
  AllNodes nodeInvariant (TypeDefinitionIndexerProperty t).
Proof.
  intros Ht. apply AllNodes_leaf; [reflexivity|]. split; [reflexivity|]. simpl.
  destruct t; try discriminate Ht; repeat split.
Qed.

Lemma forEachKey_pushed_Forall (Q : TypeDefinitionProperty -> Prop) callback declared :
  Forall (fun kv => Forall Q (snd (callback (fst kv) (snd kv)))) declared ->
  Forall Q (snd (forEachKey callback declared)).
Proof.
  induction 1 as [|[k entry] rest Hhead _ IH]; simpl; [constructor|].
  simpl in Hhead.
  destruct (callback k entry) as [[e w] ps].
  destruct (forEachKey callback rest) as [[d w'] ps']. simpl in *.
  apply Forall_app. now split.
Qed.

Lemma forEachCallback_wellFormed requiredNames nested k entry :
  match entry with
  | Some pso =>
      builtWellFormed pso /\
      match c_items pso with Some items => builtWellFormed items | None => True end
  | None => True
  end ->
  Forall (AllNodes nodeInvariant)
    (snd (forEachCallback ObjectProperty_at requiredNames nested k entry)).
Proof.
  destruct entry as [pso|]; [|constructor].
  intros [Hpso Hitems]. unfold forEachCallback, tryBlock.
  destruct (normalizedType pso) as [t|]; [|constructor].
  destruct (isPrimitiveTypeName t).
  { destruct (present _); simpl; constructor;
      auto using enumeration_wellFormed, primitive_wellFormed. }
  destruct (String.eqb t "object").
  { destruct (ObjectProperty_at (Some t) k pso (isRequiredIn requiredNames k) true true)
      as [[c w] [obj|e]] eqn:Hbuild; [|constructor].
    assert (Hobj : AllNodes nodeInvariant obj)
      by (eapply Hpso; rewrite Hbuild; reflexivity).
    destruct (negb nested); simpl.
    - now apply flattenNestedObjects_wellFormed.
    - now constructor. }
  destruct (String.eqb t "array").
  { destruct (c_items pso) as [items|]; [|constructor].
    destruct (truthy (c_ref items)).
    { simpl. constructor; [|constructor]. now apply array_wellFormed. }
    destruct (truthy (c_type items)).
    { simpl. constructor; [|constructor]. now apply array_wellFormed. }
    destruct (ObjectProperty_at (c_type items) (k ++ "[]") items
                (isRequiredIn requiredNames k) true true)
      as [[c w] [obj|e]] eqn:Hbuild; [|constructor].
    simpl. constructor; [|constructor; [apply primitive_wellFormed|constructor]].
    eapply Hitems. rewrite Hbuild. reflexivity. }
  destruct (String.eqb t "combination"); [|constructor].
  destruct (TypeDefinitionCombinationProperty _ _ _) as [p|e] eqn:Hcomb; [|constructor].
  simpl. constructor; [|constructor]. eapply combination_wellFormed; exact Hcomb.
Qed.

Lemma builtWellFormed_all c :
  builtWellFormed c /\
  match c_items c with Some items => builtWellFormed items | None => True end.
Proof.
  induction c as [c IHprops IHitems] using SchemaObjectContract_tree_ind.
  split; [|destruct (c_items c); [apply IHitems|exact I]].
  intros ty name0 isRequired isArray0 nested this.
  rewrite ObjectProperty_at_unfold; cbv zeta.
  destruct (truthy (c_ref c)) as [ref|].
  { intros H; inversion H. apply AllNodes_leaf; [reflexivity|].
    split; [reflexivity|]. simpl. repeat split; try discriminate. now left. }
  destruct (c_items c) as [items|].
  { intros H; inversion H.
    apply AllNodes_node with [TypeDefinitionIndexerProperty
      match truthy (c_ref items) with
      | Some ref => TypeDefinitionPropertyTypeReference (getTypeNameFromRef ref)
      | None => match truthy (c_type items) with
                | Some itemsType => TypeDefinitionPropertyTypePrimitive itemsType
                | None => TypeDefinitionPropertyTypePrimitive "object"
                end
      end]; [reflexivity| |].
    - split; [reflexivity|]. simpl. repeat split; try discriminate. now right; right.
    - constructor; [|constructor]. apply indexer_wellFormed.
      destruct (truthy (c_ref items)), (truthy (c_type items)); reflexivity. }
  assert (Hhead : forall ps,
    nodeInvariant
      (setPProperties ps
         match c_enum c with
         | Some values =>
             setKind "enum"
               (setEnum values
                  (setKind "object"
                     (newTypeDefinitionProperty ClassObjectProperty name0 (setType ty c)
                        isRequired isArray0)))
         | None =>
             setKind "object"
               (newTypeDefinitionProperty ClassObjectProperty name0 (setType ty c)
                  isRequired isArray0)
         end)).
  { intros ps. split; [destruct (c_enum c); reflexivity|].
    destruct (c_enum c); simpl; repeat split; try discriminate; auto. }
  destruct (c_properties c) as [declared|].
  - pose proof (forEachKey_pushed_Forall (AllNodes nodeInvariant)
                  (forEachCallback ObjectProperty_at (c_required c) nested) declared) as Hloop.
    destruct (forEachKey _ declared) as [[d w] ps].
    intros H; inversion H.
    apply AllNodes_node with ps;
      [destruct (c_enum c); reflexivity|apply Hhead|].
    apply Hloop. eapply Forall_impl; [|exact IHprops].
    intros [k entry] Hentry. simpl in *.
    apply forEachCallback_wellFormed. destruct entry; [exact Hentry|exact I].
  - intros H; inversion H.
    apply AllNodes_leaf; [destruct (c_enum c); reflexivity|].
    specialize (Hhead []).
    destruct (c_enum c); destruct Hhead as [Hf Hi]; (split; [exact Hf|exact Hi]).
Qed.

(** Every node of the tree of the root keeps the invariant. *)
Lemma TypeDefinition_wellFormed typeName contract tree :
  completionOf (TypeDefinition typeName contract) = Normal tree ->
  AllNodes nodeInvariant tree.
Proof.
  destruct (TypeDefinition_completion typeName contract) as (Hc & _ & _).
  rewrite Hc.
  destruct (completionOf (TypeDefinitionObjectProperty typeName contract true false false))
    as [this|e] eqn:Hthis; [|discriminate].
  intros H; inversion H.
  destruct (builtWellFormed_all contract) as [Hwf _].
  pose proof (Hwf _ _ _ _ _ _ Hthis) as Hall.
  destruct (ObjectProperty_at_head _ _ _ _ _ _ _ Hthis) as (Hclass & _).
  pose proof (AllNodes_self _ _ Hall) as [Hfmt Hinv].
  rewrite Hclass in Hinv.
  destruct (properties this) as [children|] eqn:Hch.
  - apply AllNodes_node with children; [exact Hch| |].
    + split; [exact Hfmt|exact Hinv].
    + apply Forall_forall. intros child Hin. now apply (AllNodes_child _ this children).
  - apply AllNodes_leaf; [exact Hch|]. split; [exact Hfmt|exact Hinv].
Qed.

(** X13: in the tree of a root, a node has kind "combination" exactly when
    its type is a Combination. *)
Theorem combination_kind_iff_type typeName contract tree p :
  completionOf (TypeDefinition typeName contract) = Normal tree ->
  NodeOf tree p ->
  (kind p = Some "combination" <-> isCombinationType (type p) = true).
Proof.
  intros Htree Hp.
  destruct (TypeDefinition_wellFormed _ _ _ Htree p Hp) as [_ Hinv].
  destruct (class p).
  - destruct Hinv as (Hk & _ & _ & Ht & _). rewrite Hk, Ht. split; discriminate.
  - destruct Hinv as (Hk & _ & _ & Ht & _). rewrite Hk, Ht. split; discriminate.
  - destruct Hinv as (Hk & _ & _ & (ct & ms & Ht & _) & _). rewrite Hk, Ht. now split.
  - destruct Hinv as (Hk & Ht & _). rewrite Ht.
    split; [|discriminate]. destruct Hk as [->|[->| ->]]; discriminate.
  - destruct Hinv as (Hk & _ & _ & Ht & _). rewrite Hk, Ht. split; discriminate.
  - destruct Hinv as (Hk & Ht & _). rewrite Ht.
    split; [|discriminate]. destruct Hk as [->|[->| ->]]; discriminate.
Qed.

(** X14: in the tree of a root, only object properties (the classes
    TypeDefinitionObjectProperty and TypeDefinition) carry a properties list,
    and their kind is "object", "enum" or "indexer"; primitive, enumeration,
    combination and "[]" indexer nodes have none. *)
Theorem properties_only_on_objects typeName contract tree p children :
  completionOf (TypeDefinition typeName contract) = Normal tree ->
  NodeOf tree p ->
  properties p = Some children ->
  (class p = ClassObjectProperty \/ class p = ClassTypeDefinition) /\
  (kind p = Some "object" \/ kind p = Some "enum" \/ kind p = Some "indexer").
Proof.
  intros Htree Hp Hch.
  destruct (TypeDefinition_wellFormed _ _ _ Htree p Hp) as [_ Hinv].
  destruct (class p).
  - destruct Hinv as (_ & Hn & _). congruence.
  - destruct Hinv as (_ & Hn & _). congruence.
  - destruct Hinv as (_ & Hn & _). congruence.
  - destruct Hinv as (Hk & _). split; [now left|exact Hk].
  - destruct Hinv as (_ & Hn & _). congruence.
  - destruct Hinv as (Hk & _). split; [now right|exact Hk].
Qed.

(** X15: in the tree of a root, a node whose type is ArrayOfPrimitive or
    ArrayOfReference is a primitive property with isArray = true and without
    properties. *)
Theorem array_type_implies_isArray typeName contract tree p :
  completionOf (TypeDefinition typeName contract) = Normal tree ->
  NodeOf tree p ->
  isArrayType (type p) = true ->
  isArray p = true /\ kind p = Some "primitive" /\ properties p = None.
Proof.
  intros Htree Hp Harr.
  destruct (TypeDefinition_wellFormed _ _ _ Htree p Hp) as [_ Hinv].
  destruct (class p).
  - destruct Hinv as (Hk & Hn & _ & _ & Ha). auto.
  - destruct Hinv as (_ & _ & _ & _ & Ht & _). congruence.
  - destruct Hinv as (_ & _ & _ & (ct & ms & Ht & _) & _).
    rewrite Ht in Harr. discriminate Harr.
  - destruct Hinv as (_ & _ & Ht & _). congruence.
  - destruct Hinv as (_ & _ & _ & _ & Ht & _). congruence.
  - destruct Hinv as (_ & _ & Ht & _). congruence.
Qed.

(** X16: in the tree of a root, every node has one of the five kinds and the
    example format "json". *)
Theorem node_kinds typeName contract tree p :
  completionOf (TypeDefinition typeName contract) = Normal tree ->
  NodeOf tree p ->
  In (kind p) [Some "primitive"; Some "enum"; Some "combination";
               Some "object"; Some "indexer"] /\
  exampleFormat p = "json".
Proof.
  intros Htree Hp.
  destruct (TypeDefinition_wellFormed _ _ _ Htree p Hp) as [Hfmt Hinv].
  split; [|exact Hfmt].
  destruct (class p).
  - destruct Hinv as (-> & _). simpl; tauto.
  - destruct Hinv as (-> & _). simpl; tauto.
  - destruct Hinv as (-> & _). simpl; tauto.
  - destruct Hinv as ([->|[->| ->]] & _); simpl; tauto.
  - destruct Hinv as (-> & _). simpl; tauto.
  - destruct Hinv as ([->|[->| ->]] & _); simpl; tauto.
Qed.

(** X17: in the tree of a root, the members of a Combination type are
    Primitive or Reference types: members are not expanded any further. *)
Theorem combination_members_plain typeName contract tree p combinationType members :
  completionOf (TypeDefinition typeName contract) = Normal tree ->
  NodeOf tree p ->
  type p = TypeDefinitionPropertyTypeCombination combinationType members ->
  forallb isPlainMember members = true.
Proof.
  intros Htree Hp Hty.
  destruct (TypeDefinition_wellFormed _ _ _ Htree p Hp) as [_ Hinv].
  destruct (class p).
  - destruct Hinv as (_ & _ & _ & Ht & _). rewrite Hty in Ht. discriminate Ht.
  - destruct Hinv as (_ & _ & _ & Ht & _). rewrite Hty in Ht. discriminate Ht.
  - destruct Hinv as (_ & _ & _ & (ct & ms & Ht & Hms) & _).
    rewrite Hty in Ht. inversion Ht; subst. exact Hms.
  - destruct Hinv as (_ & Ht & _). rewrite Hty in Ht. discriminate Ht.
  - destruct Hinv as (_ & _ & _ & Ht & _). rewrite Hty in Ht. discriminate Ht.
  - destruct Hinv as (_ & Ht & _). rewrite Hty in Ht. discriminate Ht.
Qed.

(** ** More on flattening *)

(** X18: the flattening emits no object property. *)
Theorem flattening_emits_no_object nested prefix p :
  In p (flattenNestedObjects nested prefix) ->
  instanceofObjectProperty (class p) = false.
Proof.
  intros Hin.
  destruct (flattenNestedObjects_sound nested prefix p Hin) as (leaf & dotted & Hleaf & ->).
  now destruct (FlattenedLeaf_NodeOf _ _ _ _ Hleaf).
Qed.

Lemma string_append_assoc (a b c : string) : (a ++ b) ++ c = a ++ (b ++ c).
Proof. induction a as [|ch a IH]; simpl; [reflexivity|now rewrite IH]. Qed.

Lemma FlattenedLeaf_dotted nested prefix leaf dotted :
  FlattenedLeaf nested prefix leaf dotted ->
  exists path, dotted = prefix ++ "." ++ path.
Proof.
  induction 1 as [nested prefix children leaf Hch Hin Hobj
                 |nested prefix children object leaf dotted Hch Hin Hobj _ [path IH]].
  - now exists (name leaf).
  - exists (name object ++ "." ++ path). rewrite IH.
    rewrite string_append_assoc. f_equal.
Qed.

(** X19: every name emitted by the flattening is the prefix, a dot, and a
    path. *)
Theorem flattening_names_start_with_prefix nested prefix p :
  In p (flattenNestedObjects nested prefix) ->
  exists path, name p = prefix ++ "." ++ path.
Proof.
  intros Hin.
  destruct (flattenNestedObjects_sound nested prefix p Hin) as (leaf & dotted & Hleaf & ->).
  exact (FlattenedLeaf_dotted _ _ _ _ Hleaf).
Qed.

(** X20: no leaf is lost by the flattening: every property reached through
    object properties that is not an object property itself is emitted under
    its dotted name. *)
Theorem flattening_emits_every_leaf nested prefix leaf dotted :
  FlattenedLeaf nested prefix leaf dotted ->
  exists p,
    In p (flattenNestedObjects nested prefix) /\
    name p = dotted /\ p = setName dotted leaf.
Proof.
  intros Hleaf. exists (setName dotted leaf).
  split; [now apply flattenNestedObjects_complete|]. now split.
Qed.

(** X21: in a parent that is not nested, what is pushed for a declared
    property dispatched to the "object" case is flat and named after the
    key: every pushed property is not an object property and its name is the
    key, a dot, and a path (the title of the nested object is not used). *)
Theorem object_child_flattened requiredNames k child p :
  normalizedType child = Some "object" ->
  In p (snd (forEachCallback ObjectProperty_at requiredNames false k (Some child))) ->
  instanceofObjectProperty (class p) = false /\
  exists path, name p = k ++ "." ++ path.
Proof.
  intros Hty. unfold forEachCallback, tryBlock. rewrite Hty.
  cbn [isPrimitiveTypeName String.eqb Ascii.eqb Bool.eqb orb negb].
  destruct (ObjectProperty_at (Some "object") k child (isRequiredIn requiredNames k)
              true true) as [[c w] [obj|e]]; simpl; [|contradiction].
  intros Hin.
  destruct (flattenNestedObjects_sound obj k p Hin) as (leaf & dotted & Hleaf & ->).
  split.
  - now destruct (FlattenedLeaf_NodeOf _ _ _ _ Hleaf).
  - exact (FlattenedLeaf_dotted _ _ _ _ Hleaf).
Qed.

(** ** A flat list, and what the build assigns on the fragment *)

Lemma combination_class k c isRequired p :
  TypeDefinitionCombinationProperty k c isRequired = Normal p ->
  class p = ClassCombinationProperty.
Proof.
  unfold TypeDefinitionCombinationProperty.
  destruct (combinationSelection c) as [[ct|] [[single|array]|]]; try discriminate.
  intros H; inversion H; reflexivity.
Qed.

Lemma forEachCallback_flat requiredNames k entry :
  match entry with
  | Some child => normalizedType child <> Some "array"
  | None => True
  end ->
  Forall (fun p => instanceofObjectProperty (class p) = false)
    (snd (forEachCallback ObjectProperty_at requiredNames false k entry)).
Proof.
  destruct entry as [child|]; [|constructor].
  intros Hty. unfold forEachCallback, tryBlock.
  destruct (normalizedType child) as [t|]; [|constructor].
  destruct (isPrimitiveTypeName t).
  { destruct (present _); simpl; constructor; auto. }
  destruct (String.eqb t "object").
  { destruct (ObjectProperty_at (Some t) k child (isRequiredIn requiredNames k) true true)
      as [[c w] [obj|e]]; [|constructor].
    simpl. apply Forall_forall. intros p Hin.
    destruct (flattenNestedObjects_sound obj k p Hin) as (leaf & dotted & Hleaf & ->).
    now destruct (FlattenedLeaf_NodeOf _ _ _ _ Hleaf). }
  destruct (String.eqb t "array") eqn:Harr.
  { apply String.eqb_eq in Harr. subst t. now contradiction Hty. }
  destruct (String.eqb t "combination"); [|constructor].
  destruct (TypeDefinitionCombinationProperty _ _ _) as [p|e] eqn:Hcomb; [|constructor].
  simpl. constructor; [|constructor]. now rewrite (combination_class _ _ _ _ Hcomb).
Qed.

(** X22: when no declared property of an object that is not nested is
    dispatched to the "array" case, the properties list of the object is
    flat: it holds no object property. *)
Theorem flat_without_arrays typeName contract isRequired isArray0 declared :
  truthy (c_ref contract) = None ->
  c_items contract = None ->
  c_properties contract = Some declared ->
  Forall (fun kv => match snd kv with
                    | Some child => normalizedType child <> Some "array"
                    | None => True
                    end) declared ->
  exists this children,
    completionOf (TypeDefinitionObjectProperty typeName contract isRequired isArray0 false)
    = Normal this /\
    properties this = Some children /\
    Forall (fun p => instanceofObjectProperty (class p) = false) children.
Proof.
  intros Href Hitems Hprops Hflat.
  destruct (TypeDefinitionObjectProperty_declared typeName contract isRequired isArray0
              false declared Href Hitems Hprops) as [H _].
  do 2 eexists. split; [exact H|]. split; [reflexivity|].
  unfold pushedFor. apply forEachKey_pushed_Forall.
  eapply Forall_impl; [|exact Hflat].
  intros [k entry] Hentry. simpl in *.
  unfold declaredPropertyCallback. now apply forEachCallback_flat.
Qed.





(** ** Order of the properties, and nested parents *)

Lemma forEachKey_flat_map callback declared :
  snd (forEachKey callback declared)
  = flat_map (fun kv => snd (callback (fst kv) (snd kv))) declared /\
  snd (fst (forEachKey callback declared))
  = flat_map (fun kv => snd (fst (callback (fst kv) (snd kv)))) declared.
Proof.
  induction declared as [|[k entry] rest [IH1 IH2]]; simpl; [now split|].
  destruct (callback k entry) as [[e w] ps].
  destruct (forEachKey callback rest) as [[d w'] ps']. simpl in *.
  now rewrite IH1, IH2.
Qed.

(** X24: the properties of an object with declared properties are what each
    declared property pushes, one key after the other in the order of the
    keys; the warnings are logged in the same order.  What one key pushes
    does not depend on the other keys. *)
Theorem properties_follow_key_order typeName contract isRequired isArray0 nested declared :
  truthy (c_ref contract) = None ->
  c_items contract = None ->
  c_properties contract = Some declared ->
  exists this,
    completionOf (TypeDefinitionObjectProperty typeName contract isRequired isArray0 nested)
    = Normal this /\
    properties this
    = Some (flat_map
              (fun kv => snd (forEachCallback ObjectProperty_at (c_required contract)
                                nested (fst kv) (snd kv)))
              declared) /\
    warningsOf (TypeDefinitionObjectProperty typeName contract isRequired isArray0 nested)
    = flat_map
        (fun kv => snd (fst (forEachCallback ObjectProperty_at (c_required contract)
                               nested (fst kv) (snd kv))))
        declared.
Proof.
  intros Href Hitems Hprops.
  destruct (TypeDefinitionObjectProperty_declared typeName contract isRequired isArray0
              nested declared Href Hitems Hprops) as [H1 H2].
  destruct (forEachKey_flat_map (declaredPropertyCallback contract nested) declared)
    as [E1 E2].
  eexists. split; [exact H1|]. split.
  - simpl. unfold pushedFor. now rewrite E1.
  - rewrite H2. unfold warnedFor. now rewrite E2.
Qed.

(** X25: in a nested parent a declared property dispatched to the "object"
    case is not flattened: it is pushed as exactly one object property, the
    one the object constructor builds for its key as a nested object, with
    the warnings of that construction. *)
Theorem nested_object_child_kept requiredNames k child :
  normalizedType child = Some "object" ->
  exists object,
    completionOf (TypeDefinitionObjectProperty k (setType (Some "object") child)
                    (isRequiredIn requiredNames k) true true) = Normal object /\
    snd (forEachCallback ObjectProperty_at requiredNames true k (Some child)) = [object] /\
    snd (fst (forEachCallback ObjectProperty_at requiredNames true k (Some child)))
    = warningsOf (TypeDefinitionObjectProperty k (setType (Some "object") child)
                    (isRequiredIn requiredNames k) true true) /\
    class object = ClassObjectProperty /\
    name object = orElse (c_title child) k.
Proof.
  intros Hty.
  rewrite <- TypeDefinitionObjectProperty_setType.
  unfold forEachCallback, tryBlock. rewrite Hty.
  cbn [isPrimitiveTypeName String.eqb Ascii.eqb Bool.eqb orb negb].
  destruct (ObjectProperty_at_completes (Some "object") k child
              (isRequiredIn requiredNames k) true true) as (c & w & object & Hbuild).
  destruct (ObjectProperty_at_head (Some "object") k child
              (isRequiredIn requiredNames k) true true object) as (Hc & Hn & _);
    [now rewrite Hbuild|].
  rewrite Hbuild. exists object. simpl. repeat split; assumption.
Qed.

End TypeDefinitionModel.

(** * The theorems at concrete fragments *)

Lemma combination_kind_by_precedence_witness :
  combinationKindByPrecedence JsonText (anyOfNotExample JsonText) = Some "Not" /\
  exists members,
    TypeDefinitionCombinationProperty JsonText JsonText_stringify "pet"
      (anyOfNotExample JsonText) false
    = Normal (setKind JsonText "combination"
                (setPType JsonText (TypeDefinitionPropertyTypeCombination "Not" members)
                   (newTypeDefinitionProperty JsonText JsonText_stringify
                      ClassCombinationProperty "pet" (anyOfNotExample JsonText) false false))).
Proof.
  split; [reflexivity|].
  destruct (combination_kind_by_precedence JsonText JsonText_stringify "pet"
              (anyOfNotExample JsonText) false "Not") as (members & H & _).
  - reflexivity.
  - intros single H; discriminate H.
  - exists members. exact H.
Defined.

Lemma array_without_items_omitted_witness :
  exists this,
    completionOf JsonText
      (TypeDefinitionObjectProperty JsonText JsonText_stringify "T"
         (arrayWithoutItemsExample JsonText) true false false) = Normal this /\
    properties JsonText this
    = Some [TypeDefinitionPrimitiveProperty JsonText JsonText_stringify "b"
              (ofType JsonText "string") false false].
Proof.
  destruct (array_without_items_omitted JsonText JsonText_stringify "T"
              (arrayWithoutItemsExample JsonText) true false false
              [] "a" (ofType JsonText "array")
              [("b", Some (ofType JsonText "string"))])
    as (_ & this & H1 & H2 & _); try reflexivity.
  exists this. split; [exact H1|exact H2].
Defined.

Lemma throwing_child_dropped_witness :
  exists this,
    completionOf JsonText
      (TypeDefinitionObjectProperty JsonText JsonText_stringify "T"
         (throwingChildExample JsonText) true false false) = Normal this /\
    properties JsonText this
    = Some [TypeDefinitionPrimitiveProperty JsonText JsonText_stringify "a"
              (ofType JsonText "string") false false;
            TypeDefinitionPrimitiveProperty JsonText JsonText_stringify "c"
              (ofType JsonText "integer") false false] /\
    In (UnableToProcessObjectProperty "bad" TypeError_undefined_map)
       (warningsOf JsonText
          (TypeDefinitionObjectProperty JsonText JsonText_stringify "T"
             (throwingChildExample JsonText) true false false)).
Proof.
  destruct (throwing_child_dropped JsonText JsonText_stringify "T"
              (throwingChildExample JsonText) true false false
              [("a", Some (ofType JsonText "string"))] "bad" (ofType JsonText "combination")
              [("c", Some (ofType JsonText "integer"))]
              (ofType JsonText "combination") [] TypeError_undefined_map)
    as (this & H1 & H2 & _ & H4); try reflexivity.
  exists this. split; [exact H1|]. split; [exact H2|exact H4].
Defined.

Lemma not_single_child_caught_witness :
  exists tree,
    completionOf JsonText
      (TypeDefinition JsonText JsonText_stringify "T" (notSingleExample JsonText))
    = Normal tree /\
    properties JsonText tree
    = Some [TypeDefinitionPrimitiveProperty JsonText JsonText_stringify "b"
              (ofType JsonText "string") false false].
Proof.
  destruct (not_single_child_caught JsonText JsonText_stringify "T"
              (notSingleExample JsonText)
              [] "a" (withNot JsonText (inl (ofType JsonText "string")) (emptyContract JsonText))
              [("b", Some (ofType JsonText "string"))] (ofType JsonText "string"))
    as (_ & tree & H1 & H2 & _); try reflexivity.
  exists tree. split; [exact H1|exact H2].
Defined.

(** C2 at the fragment {properties: {a: {not: {type: "string"}}, b: {type:
    "string"}}}: [not] of "a" is a single fragment and the combination
    constructor throws on it, yet the root is built, with the property "b",
    and no exception leaves the constructor. *)
Lemma not_single_child_counterexample :
  TypeDefinitionCombinationProperty JsonText JsonText_stringify "a"
    (setType JsonText (Some "combination")
       (withNot JsonText (inl (ofType JsonText "string")) (emptyContract JsonText)))
    false
  = Thrown TypeError_map_is_not_a_function /\
  (exists after tree b,
     TypeDefinition JsonText JsonText_stringify "T" (notSingleExample JsonText)
     = (after,
        [UnableToProcessObjectProperty "a" TypeError_map_is_not_a_function],
        Normal tree) /\
     properties JsonText tree = Some [b] /\
     name JsonText b = "b" /\
     kind JsonText b = Some "primitive") /\
  ~ (exists error,
       completionOf JsonText
         (TypeDefinition JsonText JsonText_stringify "T" (notSingleExample JsonText))
       = Thrown error).
Proof.
  split; [reflexivity|]. split.
  - do 3 eexists. split; [reflexivity|]. repeat split.
  - intros [error H]. discriminate H.
Qed.

Lemma string_child_primitive_witness :
  exists p this,
    p = TypeDefinitionPrimitiveProperty JsonText JsonText_stringify "a"
          (dateTimeExample JsonText) false false /\
    type JsonText p = TypeDefinitionPropertyTypePrimitive "date-time" /\
    completionOf JsonText
      (TypeDefinitionObjectProperty JsonText JsonText_stringify "T"
         (withProperties JsonText [("a", dateTimeExample JsonText)] (emptyContract JsonText))
         true false false) = Normal this /\
    properties JsonText this = Some [p].
Proof.
  destruct (string_child_primitive JsonText JsonText_stringify "T"
              (withProperties JsonText [("a", dateTimeExample JsonText)]
                 (emptyContract JsonText))
              true false false [] "a" (dateTimeExample JsonText) [])
    as (p & this & _ & H1 & _ & H2 & H3 & H4); try reflexivity.
  exists p, this. split; [exact H1|]. split; [exact H2|]. split; [exact H3|exact H4].
Defined.

(** C7 at two fragments of type "string" without enum.
    {type: "string", format: "date-time"} is built with the type
    Primitive{"date-time"}; {type: "string", items: {type: "integer"}} is
    built as an array property with the type ArrayOfPrimitive{"integer"}. *)
Lemma string_child_counterexample :
  (c_type JsonText (dateTimeExample JsonText) = Some "string" /\
   c_enum JsonText (dateTimeExample JsonText) = None /\
   exists after tree p,
     TypeDefinition JsonText JsonText_stringify "T"
       (withProperties JsonText [("a", dateTimeExample JsonText)] (emptyContract JsonText))
     = (after, [], Normal tree) /\
     properties JsonText tree = Some [p] /\
     kind JsonText p = Some "primitive" /\
     type JsonText p = TypeDefinitionPropertyTypePrimitive "date-time" /\
     type JsonText p <> TypeDefinitionPropertyTypePrimitive "string") /\
  (c_type JsonText (stringWithItemsExample JsonText) = Some "string" /\
   c_enum JsonText (stringWithItemsExample JsonText) = None /\
   exists after tree p,
     TypeDefinition JsonText JsonText_stringify "T"
       (withProperties JsonText [("a", stringWithItemsExample JsonText)]
          (emptyContract JsonText))
     = (after, [], Normal tree) /\
     properties JsonText tree = Some [p] /\
     isArray JsonText p = true /\
     type JsonText p = TypeDefinitionPropertyTypeArrayOfPrimitive "integer" /\
     type JsonText p <> TypeDefinitionPropertyTypePrimitive "string").
Proof.
  split; (split; [reflexivity|]; split; [reflexivity|]);
    do 3 eexists; (split; [reflexivity|]);
    repeat (split; [reflexivity|]); simpl; discriminate.
Qed.

Lemma items_built_as_indexer_witness :
  exists this child,
    TypeDefinitionObjectProperty JsonText JsonText_stringify "Map"
      (indexerExample JsonText) false false false
    = (indexerExample JsonText, [], Normal this) /\
    kind JsonText this = Some "indexer" /\
    properties JsonText this = Some [child] /\
    name JsonText child = "[]" /\
    required JsonText child = true /\
    type JsonText child = TypeDefinitionPropertyTypeReference "Pet".
Proof.
  destruct (items_built_as_indexer JsonText JsonText_stringify "Map"
              (indexerExample JsonText) false false false
              (withRef JsonText "#/components/schemas/Pet" (emptyContract JsonText)))
    as (this & child & H1 & H2 & H3 & H4 & H5 & _ & H7); try reflexivity.
  exists this, child. repeat (split; [assumption|]). exact H7.
Defined.

Lemma flattening_only_renames_witness :
  exists leaf dotted,
    FlattenedLeaf JsonText
      (setPProperties JsonText
         [TypeDefinitionPrimitiveProperty JsonText JsonText_stringify "b"
            (ofType JsonText "string") true false]
         (objectBeforeProperties JsonText JsonText_stringify "a"
            (ofType JsonText "object") false true))
      "a" leaf dotted /\
    dotted = "a.b" /\
    required JsonText leaf = true /\
    type JsonText leaf = TypeDefinitionPropertyTypePrimitive "string".
Proof.
  destruct (flattening_only_renames JsonText
              (setPProperties JsonText
                 [TypeDefinitionPrimitiveProperty JsonText JsonText_stringify "b"
                    (ofType JsonText "string") true false]
                 (objectBeforeProperties JsonText JsonText_stringify "a"
                    (ofType JsonText "object") false true))
              "a"
              (setName JsonText "a.b"
                 (TypeDefinitionPrimitiveProperty JsonText JsonText_stringify "b"
                    (ofType JsonText "string") true false)))
    as (leaf & dotted & Hleaf & _ & Hname & Hreq & _ & Hty & _).
  - simpl. left. reflexivity.
  - exists leaf, dotted. split; [exact Hleaf|].
    split; [symmetry; exact Hname|].
    split; [symmetry; exact Hreq|symmetry; exact Hty].
Defined.

(** * The further properties at concrete inputs *)

Lemma getTypeNameFromRef_last_segment_witness :
  getTypeNameFromRef ("#/components/schemas" ++ "/" ++ "Pet") = "Pet".
Proof. apply (getTypeNameFromRef_last_segment "#/components/schemas" "Pet"). reflexivity. Defined.

Lemma getTypeNameFromRef_without_slash_witness : getTypeNameFromRef "Pet" = "Pet".
Proof. apply (getTypeNameFromRef_without_slash "Pet"). reflexivity. Defined.

Lemma array_child_of_named_elements_witness :
  exists p,
    forEachCallback JsonText JsonText_stringify (ObjectProperty_at JsonText JsonText_stringify)
      (Some ["widgets"]) false "widgets" (Some (widgetArrayExample JsonText))
    = (Some (widgetArrayExample JsonText), [], [p]) /\
    isArray JsonText p = true /\
    required JsonText p = true /\
    type JsonText p = TypeDefinitionPropertyTypeArrayOfReference "Widget".
Proof.
  destruct (array_child_of_named_elements JsonText JsonText_stringify
              (ObjectProperty_at JsonText JsonText_stringify) (Some ["widgets"]) false
              "widgets" (widgetArrayExample JsonText)
              (withRef JsonText "#/components/schemas/Widget" (emptyContract JsonText)))
    as (p & H1 & _ & _ & H2 & H3 & _ & H4).
  - reflexivity.
  - repeat split.
  - left. discriminate.
  - exists p. split; [exact H1|]. split; [exact H2|]. split; [exact H3|exact H4].
Defined.

Lemma array_child_of_objects_witness :
  exists elements array,
    snd (forEachCallback JsonText JsonText_stringify
           (ObjectProperty_at JsonText JsonText_stringify)
           None false "rows" (Some (rowsExample JsonText)))
    = [elements; array] /\
    name JsonText elements = "rows[]" /\
    type JsonText array = TypeDefinitionPropertyTypePrimitive "array".
Proof.
  destruct (array_child_of_objects JsonText JsonText_stringify None false "rows"
              (rowsExample JsonText)
              (withProperties JsonText [("id", ofType JsonText "integer")]
                 (emptyContract JsonText)))
    as (elements & array & H1 & _ & _ & H2 & _ & _ & H3 & _).
  - reflexivity.
  - repeat split.
  - reflexivity.
  - reflexivity.
  - exists elements, array. split; [exact H1|]. split; [exact H2|exact H3].
Defined.

Lemma reference_child_witness :
  forEachCallback JsonText JsonText_stringify (ObjectProperty_at JsonText JsonText_stringify)
    None false "owner" (Some (petReferenceExample JsonText))
  = (Some (setType JsonText (Some "object") (petReferenceExample JsonText)), [], []).
Proof.
  destruct (reference_child JsonText JsonText_stringify None "owner"
              (petReferenceExample JsonText) "#/components/schemas/Pet") as [H _].
  - reflexivity.
  - reflexivity.
  - repeat split.
  - exact H.
Defined.

Lemma unknown_type_child_witness :
  forEachCallback JsonText JsonText_stringify (ObjectProperty_at JsonText JsonText_stringify)
    None false "upload" (Some (ofType JsonText "file"))
  = (Some (ofType JsonText "file"), [UnknownTypeOfSchemaDefinition (Some "file")], []).
Proof.
  apply (unknown_type_child JsonText JsonText_stringify
           (ObjectProperty_at JsonText JsonText_stringify) None false "upload"
           (ofType JsonText "file")).
  - reflexivity.
  - reflexivity.
  - repeat split.
  - reflexivity.
Defined.

Lemma enumeration_child_witness :
  exists p,
    forEachCallback JsonText JsonText_stringify (ObjectProperty_at JsonText JsonText_stringify)
      None false "colour"
      (Some (withEnum JsonText ["red"; "green"] (ofType JsonText "string")))
    = (Some (withEnum JsonText ["red"; "green"] (ofType JsonText "string")), [], [p]) /\
    kind JsonText p = Some "enum" /\
    enum JsonText p = None.
Proof.
  destruct (enumeration_child JsonText JsonText_stringify
              (ObjectProperty_at JsonText JsonText_stringify) None false "colour"
              (withEnum JsonText ["red"; "green"] (ofType JsonText "string"))
              "string" ["red"; "green"])
    as (p & H1 & _ & H2 & H3 & _).
  - reflexivity.
  - reflexivity.
  - reflexivity.
  - reflexivity.
  - reflexivity.
  - repeat split.
  - exists p. split; [exact H1|]. split; [exact H2|exact H3].
Defined.

Lemma reference_object_witness :
  exists this,
    TypeDefinitionObjectProperty JsonText JsonText_stringify "Owner"
      (petReferenceExample JsonText) true false false
    = (petReferenceExample JsonText, [], Normal this) /\
    type JsonText this = TypeDefinitionPropertyTypeReference "Pet".
Proof.
  destruct (reference_object JsonText JsonText_stringify "Owner"
              (petReferenceExample JsonText) true false false "#/components/schemas/Pet")
    as (this & H1 & _ & H2 & _).
  - reflexivity.
  - exists this. split; [exact H1|exact H2].
Defined.

Lemma enumeration_object_witness :
  exists this,
    completionOf JsonText
      (TypeDefinitionObjectProperty JsonText JsonText_stringify "Colour"
         (withEnum JsonText ["red"] (nestedObjectExample JsonText)) true false false)
    = Normal this /\
    kind JsonText this = Some "enum" /\
    enum JsonText this = Some ["red"].
Proof.
  destruct (enumeration_object JsonText JsonText_stringify "Colour"
              (withEnum JsonText ["red"] (nestedObjectExample JsonText)) true false false
              ["red"]
              [("a", Some (withProperties JsonText [("b", ofType JsonText "string")]
                             (ofType JsonText "object")))])
    as (this & H1 & H2 & H3 & _).
  - reflexivity.
  - reflexivity.
  - reflexivity.
  - reflexivity.
  - exists this. split; [exact H1|]. split; [exact H2|exact H3].
Defined.

Lemma combination_kind_iff_type_witness :
  exists tree p,
    completionOf JsonText
      (TypeDefinition JsonText JsonText_stringify "T" (mixedExample JsonText)) = Normal tree /\
    NodeOf JsonText tree p /\
    name JsonText p = "pet" /\
    (kind JsonText p = Some "combination" <-> isCombinationType (type JsonText p) = true).
Proof.
  do 2 eexists. split; [reflexivity|].
  split; [eapply NodeOf_below; [reflexivity|left; reflexivity|apply NodeOf_self]|].
  split; [reflexivity|].
  eapply (combination_kind_iff_type JsonText JsonText_stringify "T" (mixedExample JsonText));
    [reflexivity|].
  eapply NodeOf_below; [reflexivity|left; reflexivity|apply NodeOf_self].
Defined.

Lemma properties_only_on_objects_witness :
  exists tree p children,
    completionOf JsonText
      (TypeDefinition JsonText JsonText_stringify "T" (mixedExample JsonText)) = Normal tree /\
    NodeOf JsonText tree p /\
    name JsonText p = "rows[]" /\
    properties JsonText p = Some children /\
    class JsonText p = ClassObjectProperty.
Proof.
  do 3 eexists. split; [reflexivity|].
  split; [eapply NodeOf_below;
            [reflexivity|right; right; left; reflexivity|apply NodeOf_self]|].
  split; [reflexivity|]. split; [reflexivity|].
  edestruct (properties_only_on_objects JsonText JsonText_stringify "T"
               (mixedExample JsonText)) as [[H|H] _].
  - reflexivity.
  - eapply NodeOf_below; [reflexivity|right; right; left; reflexivity|apply NodeOf_self].
  - reflexivity.
  - exact H.
  - discriminate H.
Defined.

Lemma array_type_implies_isArray_witness :
  exists tree p,
    completionOf JsonText
      (TypeDefinition JsonText JsonText_stringify "T" (mixedExample JsonText)) = Normal tree /\
    NodeOf JsonText tree p /\
    name JsonText p = "tags" /\
    isArray JsonText p = true.
Proof.
  do 2 eexists. split; [reflexivity|].
  split; [eapply NodeOf_below; [reflexivity|right; left; reflexivity|apply NodeOf_self]|].
  split; [reflexivity|].
  eapply (array_type_implies_isArray JsonText JsonText_stringify "T" (mixedExample JsonText));
    [reflexivity
    |eapply NodeOf_below; [reflexivity|right; left; reflexivity|apply NodeOf_self]
    |reflexivity].
Defined.

Lemma node_kinds_witness :
  exists tree p,
    completionOf JsonText
      (TypeDefinition JsonText JsonText_stringify "T" (mixedExample JsonText)) = Normal tree /\
    NodeOf JsonText tree p /\
    name JsonText p = "rows" /\
    exampleFormat JsonText p = "json".
Proof.
  do 2 eexists. split; [reflexivity|].
  split; [eapply NodeOf_below;
            [reflexivity|right; right; right; left; reflexivity|apply NodeOf_self]|].
  split; [reflexivity|].
  eapply (node_kinds JsonText JsonText_stringify "T" (mixedExample JsonText));
    [reflexivity|].
  eapply NodeOf_below;
    [reflexivity|right; right; right; left; reflexivity|apply NodeOf_self].
Defined.

Lemma combination_members_plain_witness :
  forallb isPlainMember
    [TypeDefinitionPropertyTypeReference "Pet"] = true.
Proof.
  eapply (combination_members_plain JsonText JsonText_stringify "T" (mixedExample JsonText)
            _ _ "Not" [TypeDefinitionPropertyTypeReference "Pet"]);
    [reflexivity
    |eapply NodeOf_below; [reflexivity|left; reflexivity|apply NodeOf_self]
    |reflexivity].
Defined.

Lemma flattening_emits_no_object_witness :
  instanceofObjectProperty
    (class JsonText
       (setName JsonText "a.b"
          (TypeDefinitionPrimitiveProperty JsonText JsonText_stringify "b"
             (ofType JsonText "string") true false))) = false.
Proof.
  apply (flattening_emits_no_object JsonText
           (setPProperties JsonText
              [TypeDefinitionPrimitiveProperty JsonText JsonText_stringify "b"
                 (ofType JsonText "string") true false]
              (objectBeforeProperties JsonText JsonText_stringify "a"
                 (ofType JsonText "object") false true))
           "a").
  simpl. left. reflexivity.
Defined.

Lemma flattening_names_start_with_prefix_witness :
  exists path,
    name JsonText
      (setName JsonText "a.b"
         (TypeDefinitionPrimitiveProperty JsonText JsonText_stringify "b"
            (ofType JsonText "string") true false))
    = "a" ++ "." ++ path.
Proof.
  apply (flattening_names_start_with_prefix JsonText
           (setPProperties JsonText
              [TypeDefinitionPrimitiveProperty JsonText JsonText_stringify "b"
                 (ofType JsonText "string") true false]
              (objectBeforeProperties JsonText JsonText_stringify "a"
                 (ofType JsonText "object") false true))
           "a").
  simpl. left. reflexivity.
Defined.

Lemma flattening_emits_every_leaf_witness :
  exists p,
    In p (flattenNestedObjects JsonText
            (setPProperties JsonText
               [TypeDefinitionPrimitiveProperty JsonText JsonText_stringify "b"
                  (ofType JsonText "string") true false]
               (objectBeforeProperties JsonText JsonText_stringify "a"
                  (ofType JsonText "object") false true))
            "a") /\
    name JsonText p = "a.b".
Proof.
  destruct (flattening_emits_every_leaf JsonText
              (setPProperties JsonText
                 [TypeDefinitionPrimitiveProperty JsonText JsonText_stringify "b"
                    (ofType JsonText "string") true false]
                 (objectBeforeProperties JsonText JsonText_stringify "a"
                    (ofType JsonText "object") false true))
              "a"
              (TypeDefinitionPrimitiveProperty JsonText JsonText_stringify "b"
                 (ofType JsonText "string") true false)
              "a.b") as (p & H1 & H2 & _).
  - apply (FlattenedLeaf_child JsonText _ "a"
             [TypeDefinitionPrimitiveProperty JsonText JsonText_stringify "b"
                (ofType JsonText "string") true false]).
    + reflexivity.
    + left. reflexivity.
    + reflexivity.
  - exists p. split; [exact H1|exact H2].
Defined.

Lemma object_child_flattened_witness :
  exists path,
    name JsonText
      (setName JsonText "a.b"
         (TypeDefinitionPrimitiveProperty JsonText JsonText_stringify "b"
            (ofType JsonText "string") false false))
    = "a" ++ "." ++ path.
Proof.
  apply (object_child_flattened JsonText JsonText_stringify None "a"
           (withProperties JsonText [("b", ofType JsonText "string")]
              (ofType JsonText "object"))).
  - reflexivity.
  - simpl. left. reflexivity.
Defined.

Lemma flat_without_arrays_witness :
  exists this children,
    completionOf JsonText
      (TypeDefinitionObjectProperty JsonText JsonText_stringify "T"
         (ownerExample JsonText) true false false) = Normal this /\
    properties JsonText this = Some children /\
    Forall (fun p => instanceofObjectProperty (class JsonText p) = false) children.
Proof.
  apply (flat_without_arrays JsonText JsonText_stringify "T" (ownerExample JsonText)
           true false
           [("owner", Some (petReferenceExample JsonText));
            ("name", Some (ofType JsonText "string"))]).
  - reflexivity.
  - reflexivity.
  - reflexivity.
  - repeat constructor; simpl; discriminate.
Defined.


Lemma properties_follow_key_order_witness :
  exists this,
    completionOf JsonText
      (TypeDefinitionObjectProperty JsonText JsonText_stringify "T"
         (throwingChildExample JsonText) true false false) = Normal this /\
    properties JsonText this
    = Some [TypeDefinitionPrimitiveProperty JsonText JsonText_stringify "a"
              (ofType JsonText "string") false false;
            TypeDefinitionPrimitiveProperty JsonText JsonText_stringify "c"
              (ofType JsonText "integer") false false].
Proof.
  destruct (properties_follow_key_order JsonText JsonText_stringify "T"
              (throwingChildExample JsonText) true false false
              [("a", Some (ofType JsonText "string"));
               ("bad", Some (ofType JsonText "combination"));
               ("c", Some (ofType JsonText "integer"))])
    as (this & H1 & H2 & _).
  - reflexivity.
  - reflexivity.
  - reflexivity.
  - exists this. split; [exact H1|exact H2].
Defined.

Lemma nested_object_child_kept_witness :
  exists object,
    snd (forEachCallback JsonText JsonText_stringify
           (ObjectProperty_at JsonText JsonText_stringify) None true "owner"
           (Some (petReferenceExample JsonText))) = [object] /\
    name JsonText object = "owner".
Proof.
  destruct (nested_object_child_kept JsonText JsonText_stringify None "owner"
              (petReferenceExample JsonText)) as (object & _ & H1 & _ & _ & H2).
  - reflexivity.
  - exists object. split; [exact H1|exact H2].
Defined.
